(** * Connection resolver of [fastapi_app/models.py]

    A shallow embedding of [parse_azure_conn_str] and [build_url], with the
    Python built-ins they call ([str.split], [str.strip], [in], [int],
    [os.getenv], [or], [all]) and the constructor [URL.create] of SQLAlchemy.

    Conventions.
    - A Python [str] is a [string]; a character is a code point below 256.
    - The process environment [os.environ] is a [gmap string string];
      [os.getenv] returns an [option string] ([None] for an unset variable).
    - A [dict] with string keys is a [gmap string string].
    - [build_url] logs through [logger.info] and may raise: it is a
      computation in the monad [M], which carries the log lines written so
      far and either the exception raised or the value returned.
    - [int()] refuses a string with too many digits; the limit
      ([sys.get_int_max_str_digits()], 4300 by default, 0 for none) is a
      parameter of [PyInt.parse] and of [build_url]. *)

From Stdlib Require Import String Ascii List ZArith NArith Bool Lia.
From stdpp Require Import base option gmap strings fin_maps.

Local Open Scope string_scope.
Local Open Scope list_scope.

(** ** Characters *)

Module PyChar.

Definition code (c : ascii) : N := N_of_ascii c.

(** [Py_UNICODE_ISSPACE], restricted to code points below 256: the
    characters on which [str.split()] splits and that [str.strip()]
    removes. *)
Definition isspace (c : ascii) : bool :=
  let n := code c in
  ((9 <=? n) && (n <=? 13) || (28 <=? n) && (n <=? 31)
   || (n =? 32) || (n =? 133) || (n =? 160))%N.

(** The characters that [int()] skips around a literal: [Py_ISSPACE] on
    the ASCII range (so not 28..31), and the two Latin-1 spaces, which
    [int()] first rewrites to [' ']. *)
Definition int_isspace (c : ascii) : bool :=
  let n := code c in
  ((9 <=? n) && (n <=? 13) || (n =? 32) || (n =? 133) || (n =? 160))%N.

(** The value of a decimal digit; below 256 only ['0'..'9'] are digits. *)
Definition digit (c : ascii) : option Z :=
  let n := code c in
  if ((48 <=? n) && (n <=? 57))%N then Some (Z.of_N n - 48)%Z else None.

End PyChar.

(** ** String built-ins *)

Module PyStr.

(** Truth value of a [str]: false exactly for the empty string. *)
Definition truthy (s : string) : bool :=
  match s with EmptyString => false | String _ _ => true end.

(** [s.startswith(p)]. *)
Fixpoint startswith (p s : string) : bool :=
  match p, s with
  | EmptyString, _ => true
  | String a p', String b s' => Ascii.eqb a b && startswith p' s'
  | String _ _, EmptyString => false
  end.

(** [sub in s]: [sub] occurs as a substring of [s]. *)
Fixpoint contains (sub s : string) : bool :=
  startswith sub s ||
  match s with
  | EmptyString => false
  | String _ s' => contains sub s'
  end.

(** The loop of [str.split()] with no separator: [tok] is the token being
    read (empty between tokens); a whitespace character closes it. *)
Fixpoint split_from (tok s : string) : list string :=
  match s with
  | EmptyString => if truthy tok then [tok] else []
  | String c s' =>
      if PyChar.isspace c
      then (if truthy tok then tok :: split_from EmptyString s'
            else split_from EmptyString s')
      else split_from (tok ++ String c EmptyString) s'
  end.

(** [s.split()]. *)
Definition split (s : string) : list string := split_from EmptyString s.

(** [s.lstrip()]. *)
Fixpoint lstrip (s : string) : string :=
  match s with
  | EmptyString => EmptyString
  | String c s' => if PyChar.isspace c then lstrip s' else s
  end.

(** [s.rstrip()]. *)
Fixpoint rstrip (s : string) : string :=
  match s with
  | EmptyString => EmptyString
  | String c s' =>
      match rstrip s' with
      | EmptyString => if PyChar.isspace c then EmptyString else String c EmptyString
      | r => String c r
      end
  end.

(** [s.strip()]. *)
Definition strip (s : string) : string := rstrip (lstrip s).

(** [s.split(sep, 1)] for a one-character separator: [s] cut at the first
    [sep], or [None] when [sep] does not occur (Python then returns the
    one-element list [[s]]). *)
Fixpoint split_once (sep : ascii) (s : string) : option (string * string) :=
  match s with
  | EmptyString => None
  | String c s' =>
      if Ascii.eqb c sep then Some (EmptyString, s')
      else match split_once sep s' with
           | Some (k, v) => Some (String c k, v)
           | None => None
           end
  end.

(** A string without whitespace, in the sense of [str.split()]. *)
Fixpoint nospace (s : string) : bool :=
  match s with
  | EmptyString => true
  | String c s' => negb (PyChar.isspace c) && nospace s'
  end.

(** The character [c] does not occur in [s]. *)
Fixpoint lacks (c : ascii) (s : string) : bool :=
  match s with
  | EmptyString => true
  | String a s' => negb (Ascii.eqb a c) && lacks c s'
  end.

End PyStr.

(** ** Exceptions, logging and the resolver's monad *)

(** The exceptions that the modelled code can raise.  [ValueError] comes
    from [int()], [KeyError] from a subscript [d[k]] on a missing key, and
    [RuntimeError] is raised by [build_url] itself with a message. *)
Inductive exn : Type :=
| ValueError
| KeyError (key : string)
| RuntimeError (msg : string).

Inductive outcome (A : Type) : Type :=
| Return (a : A)
| Raise (e : exn).
Arguments Return {A} a.
Arguments Raise {A} e.

(** A computation: the lines passed to [logger.info], oldest first, and how
    the computation ended. *)
Definition M (A : Type) : Type := (list string * outcome A)%type.

#[export] Instance M_ret : MRet M := λ A a, ([], Return a).

#[export] Instance M_bind : MBind M := λ A B f m,
  match m with
  | (l, Return a) => let '(l', r) := f a in (l ++ l', r)
  | (l, Raise e) => (l, Raise e)
  end.

Definition raise {A : Type} (e : exn) : M A := ([], Raise e).

(** [logger.info(msg)]: the logger [app] is set to level [INFO], so the
    line is emitted. *)
Definition logger_info (msg : string) : M unit := ([msg], Return tt).

Definition logged {A : Type} (m : M A) : list string := fst m.
Definition result {A : Type} (m : M A) : outcome A := snd m.

(** ** [int()] on a string, base 10 *)

Module PyInt.

Fixpoint skip_space (s : string) : string :=
  match s with
  | EmptyString => EmptyString
  | String c s' => if PyChar.int_isspace c then skip_space s' else s
  end.

(** An optional sign. *)
Definition take_sign (s : string) : Z * string :=
  match s with
  | String "+"%char s' => (1%Z, s')
  | String "-"%char s' => ((-1)%Z, s')
  | _ => (1%Z, s)
  end.

(** The digit loop: digits and single underscores between them.  [prev_us]
    says that the previous character was an underscore; the result is the
    value read, the number of digits and the unread rest, or [None] for a
    doubled or trailing underscore. *)
Fixpoint scan (prev_us : bool) (acc : Z) (digits : nat) (s : string)
  : option (Z * nat * string) :=
  match s with
  | EmptyString => if prev_us then None else Some (acc, digits, EmptyString)
  | String c s' =>
      if Ascii.eqb c "_"%char
      then (if prev_us then None else scan true acc digits s')
      else match PyChar.digit c with
           | Some d => scan false (10 * acc + d)%Z (S digits) s'
           | None => if prev_us then None else Some (acc, digits, s)
           end
  end.

(** [sys.int_info.str_digits_check_threshold]. *)
Definition str_digits_check_threshold : nat := 640.

Section Limit.

(** [sys.get_int_max_str_digits()]: 4300 by default since CPython
    3.11, and [0] where the limit is switched off or does not exist. *)
Variable max_str_digits : nat.

Definition exceeds_limit (digits : nat) : bool :=
  (str_digits_check_threshold <? digits)%nat &&
  (0 <? max_str_digits)%nat && (max_str_digits <? digits)%nat.

(** [int(s)] as a partial function: [None] stands for [ValueError]. *)
Definition parse (s : string) : option Z :=
  let '(sign, body) := take_sign (skip_space s) in
  if PyStr.startswith "_" body then None
  else match scan false 0%Z 0%nat body with
       | None => None
       | Some (v, digits, rest) =>
           if exceeds_limit digits then None
           else if (digits =? 0)%nat then None
           else match skip_space rest with
                | EmptyString => Some (sign * v)%Z
                | String _ _ => None
                end
       end.

(** [int(s)] in the monad. *)
Definition int (s : string) : M Z :=
  match parse s with
  | Some n => mret n
  | None => raise ValueError
  end.

End Limit.

End PyInt.

(** ** [os.getenv] and truth values of [Optional[str]] *)

Module Os.

(** The process environment. *)
Abbreviation environ := (gmap string string).

(** [os.getenv(name)]: [None] when the variable is unset. *)
Definition getenv (env : environ) (name : string) : option string :=
  env !! name.

(** [os.getenv(name, default)]. *)
Definition getenv_default (env : environ) (name dflt : string) : string :=
  match env !! name with
  | Some v => v
  | None => dflt
  end.

End Os.

(** Truth value of an [Optional[str]]: [None] and [""] are false. *)
Definition truthy (v : option string) : bool :=
  match v with
  | Some s => PyStr.truthy s
  | None => false
  end.

(** [a or b] on two [Optional[str]]. *)
Definition py_or (a b : option string) : option string :=
  if truthy a then a else b.

(** [a or dflt] where [dflt] is a string literal: always a [str]. *)
Definition py_or_str (a : option string) (dflt : string) : string :=
  match a with
  | Some s => if PyStr.truthy s then s else dflt
  | None => dflt
  end.

(** The value tested by [if v:], when it is true. *)
Definition when_truthy (v : option string) : option string :=
  match v with
  | Some s => if PyStr.truthy s then Some s else None
  | None => None
  end.

(** ** The connection descriptor: [sqlalchemy.engine.URL] *)

Module URL.

(** The fields of a [URL].  Every field but [drivername] may be [None];
    [query] maps parameter names to values. *)
Record t : Type := mk {
  drivername : string;
  username : option string;
  password : option string;
  host : option string;
  port : option Z;
  database : option string;
  query : gmap string string
}.

(** [URL.create(drivername, username=None, password=None, host=None,
    port=None, database=None, query={})].  The constructor stores its
    arguments: it checks their types and parses nothing (parsing a URL
    string is [make_url]'s work). *)
Definition create (drivername : string)
    (username password host : option string) (port : option Z)
    (database : option string) (query : gmap string string) : t :=
  mk drivername username password host port database query.

(** [URL.create(name)], every keyword argument at its default. *)
Definition create_positional (name : string) : t :=
  create name None None None None None ∅.

(** Every field of the descriptor holds a value. *)
Definition populated (u : t) : bool :=
  bool_decide (is_Some (username u)) && bool_decide (is_Some (password u))
  && bool_decide (is_Some (host u)) && bool_decide (is_Some (port u))
  && bool_decide (is_Some (database u)).

End URL.

(** ** [parse_azure_conn_str] *)

(** The body of the loop of [parse_azure_conn_str]: one token against the
    dictionary [parts]. *)
Definition parse_token (parts : gmap string string) (token : string)
  : gmap string string :=
  if PyStr.contains "=" token
  then match PyStr.split_once "="%char token with
       | Some (k, v) => <[PyStr.strip k := PyStr.strip v]> parts
       | None => parts
       end
  else parts.

Definition parse_azure_conn_str (conn_str : string) : gmap string string :=
  fold_left parse_token (PyStr.split conn_str) ∅.

(** ** [build_url] *)

(** [d[key]]. *)
Definition getitem (d : gmap string string) (key : string) : M string :=
  match d !! key with
  | Some v => mret v
  | None => raise (KeyError key)
  end.

(** [k in d and d[k]], as a truth value. *)
Definition present (d : gmap string string) (k : string) : bool :=
  match d !! k with
  | Some v => PyStr.truthy v
  | None => false
  end.

Definition required : list string := ["host"; "dbname"; "user"; "password"].

Definition msg_database_url : string := "Using DATABASE_URL from environment.".
Definition msg_azure : string := "Using AZURE_POSTGRESQL_CONNECTIONSTRING.".
Definition msg_split : string := "Using split DB_* variables.".
Definition msg_incomplete : string :=
  "AZURE_POSTGRESQL_CONNECTIONSTRING is incomplete.".
Definition msg_no_config : string :=
  "No database configuration found. Set one of: " ++
  "DATABASE_URL, AZURE_POSTGRESQL_CONNECTIONSTRING, or DB_HOST/DB_NAME/DB_USER/DB_PASSWORD.".

Section Resolver.

Variable max_str_digits : nat.

(** The string handed to [int()] for the split-variable port. *)
Definition port_text (env : Os.environ) : string :=
  py_or_str (py_or (Os.getenv env "DBPORT") (Os.getenv env "DB_PORT")) "5432".

(** The branch taken when [AZURE_POSTGRESQL_CONNECTIONSTRING] is true. *)
Definition build_from_azure (driver azure_conn : string) : M URL.t :=
  logger_info msg_azure ;;
  let d := parse_azure_conn_str azure_conn in
  if negb (forallb (present d) required)
  then raise (RuntimeError msg_incomplete)
  else
    let sslmode := default "require" (d !! "sslmode") in
    user ← getitem d "user";
    pwd ← getitem d "password";
    host ← getitem d "host";
    port ← match d !! "port" with
           | Some p => PyInt.int max_str_digits p
           | None => mret 5432%Z
           end;
    name ← getitem d "dbname";
    mret (URL.create driver (Some user) (Some pwd) (Some host) (Some port)
            (Some name) {["sslmode" := sslmode]}).

Definition build_url (env : Os.environ) : M URL.t :=
  let database_url := Os.getenv env "DATABASE_URL" in
  let azure_conn := Os.getenv env "AZURE_POSTGRESQL_CONNECTIONSTRING" in
  let host := py_or (Os.getenv env "DBHOST") (Os.getenv env "DB_HOST") in
  let name := py_or (Os.getenv env "DBNAME") (Os.getenv env "DB_NAME") in
  let user := py_or (Os.getenv env "DBUSER") (Os.getenv env "DB_USER") in
  let pwd := py_or (Os.getenv env "DBPASS") (Os.getenv env "DB_PASSWORD") in
  port ← PyInt.int max_str_digits (port_text env);
  let driver := Os.getenv_default env "DB_DRIVER" "postgresql+psycopg" in
  match when_truthy database_url with
  | Some url =>
      logger_info msg_database_url ;;
      mret (URL.create_positional url)
  | None =>
  match when_truthy azure_conn with
  | Some conn => build_from_azure driver conn
  | None =>
  if forallb truthy [host; name; user; pwd]
  then
    logger_info msg_split ;;
    mret (URL.create driver user pwd host (Some port) name
            (if PyStr.contains "azure.com" (py_or_str host "")
             then {["sslmode" := "require"]} else ∅))
  else raise (RuntimeError msg_no_config)
  end end.

End Resolver.

(** * Vocabulary of the statements *)

(** An [Optional[str]] that [if v:] takes as false. *)
Definition unset_or_empty (v : option string) : Prop :=
  v = None ∨ v = Some "".

(** The value that [build_url] uses for a field with the short name [short]
    and the prefixed name [prefixed]. *)
Definition first_form (env : Os.environ) (short prefixed : string)
    (used : option string) : Prop :=
  (∀ s, Os.getenv env short = Some s → s ≠ "" → used = Some s) ∧
  (unset_or_empty (Os.getenv env short) →
   ∀ s, Os.getenv env prefixed = Some s → s ≠ "" → used = Some s).

(** ** Integer literals *)

(** The strings that [int()] accepts in base 10, as a grammar: whitespace,
    an optional sign, digits with single underscores between them,
    whitespace. *)
Module Literal.

Definition isdigit (c : ascii) : bool :=
  match PyChar.digit c with Some _ => true | None => false end.

Inductive spaces : string → Prop :=
| spaces_nil : spaces ""
| spaces_cons c s :
    PyChar.int_isspace c = true → spaces s → spaces (String c s).

(** What may follow a digit. *)
Inductive tail : string → Prop :=
| tail_end ws : spaces ws → tail ws
| tail_digit c s : isdigit c = true → tail s → tail (String c s)
| tail_underscore c s :
    isdigit c = true → tail s → tail (String "_" (String c s)).

Inductive unsigned : string → Prop :=
| unsigned_intro c s : isdigit c = true → tail s → unsigned (String c s).

Inductive signed : string → Prop :=
| signed_plus s : unsigned s → signed (String "+" s)
| signed_minus s : unsigned s → signed (String "-" s)
| signed_none s : unsigned s → signed s.

Inductive literal : string → Prop :=
| literal_space c s :
    PyChar.int_isspace c = true → literal s → literal (String c s)
| literal_signed s : signed s → literal s.

End Literal.

(** ** The ways a run can end *)

(** How the branch ends: the three ways out of [build_from_azure]. *)
Inductive azure_resolution (lim : nat) (driver conn : string)
  : M URL.t → Prop :=
| azure_incomplete k :
    k ∈ required →
    unset_or_empty (parse_azure_conn_str conn !! k) →
    azure_resolution lim driver conn
      ([msg_azure], Raise (RuntimeError msg_incomplete))
| azure_port_error h n u p s :
    parse_azure_conn_str conn !! "host" = Some h → h ≠ "" →
    parse_azure_conn_str conn !! "dbname" = Some n → n ≠ "" →
    parse_azure_conn_str conn !! "user" = Some u → u ≠ "" →
    parse_azure_conn_str conn !! "password" = Some p → p ≠ "" →
    parse_azure_conn_str conn !! "port" = Some s →
    PyInt.parse lim s = None →
    azure_resolution lim driver conn ([msg_azure], Raise ValueError)
| azure_descriptor h n u p port :
    parse_azure_conn_str conn !! "host" = Some h → h ≠ "" →
    parse_azure_conn_str conn !! "dbname" = Some n → n ≠ "" →
    parse_azure_conn_str conn !! "user" = Some u → u ≠ "" →
    parse_azure_conn_str conn !! "password" = Some p → p ≠ "" →
    match parse_azure_conn_str conn !! "port" with
    | Some s => PyInt.parse lim s
    | None => Some 5432%Z
    end = Some port →
    azure_resolution lim driver conn
      ([msg_azure],
       Return (URL.create driver (Some u) (Some p) (Some h) (Some port) (Some n)
                 {["sslmode" :=
                     default "require" (parse_azure_conn_str conn !! "sslmode")]})).

(** How [build_url] ends: the conversion of the port first, then the four
    branches in their order. *)
Inductive resolution (lim : nat) (env : Os.environ) : M URL.t → Prop :=
| resolved_port_error :
    PyInt.parse lim (port_text env) = None →
    resolution lim env ([], Raise ValueError)
| resolved_database_url port url :
    PyInt.parse lim (port_text env) = Some port →
    Os.getenv env "DATABASE_URL" = Some url → url ≠ "" →
    resolution lim env
      ([msg_database_url], Return (URL.create_positional url))
| resolved_azure port conn m :
    PyInt.parse lim (port_text env) = Some port →
    unset_or_empty (Os.getenv env "DATABASE_URL") →
    Os.getenv env "AZURE_POSTGRESQL_CONNECTIONSTRING" = Some conn →
    conn ≠ "" →
    azure_resolution lim
      (Os.getenv_default env "DB_DRIVER" "postgresql+psycopg") conn m →
    resolution lim env m
| resolved_split port h n u p :
    PyInt.parse lim (port_text env) = Some port →
    unset_or_empty (Os.getenv env "DATABASE_URL") →
    unset_or_empty (Os.getenv env "AZURE_POSTGRESQL_CONNECTIONSTRING") →
    py_or (Os.getenv env "DBHOST") (Os.getenv env "DB_HOST") = Some h → h ≠ "" →
    py_or (Os.getenv env "DBNAME") (Os.getenv env "DB_NAME") = Some n → n ≠ "" →
    py_or (Os.getenv env "DBUSER") (Os.getenv env "DB_USER") = Some u → u ≠ "" →
    py_or (Os.getenv env "DBPASS") (Os.getenv env "DB_PASSWORD") = Some p →
    p ≠ "" →
    resolution lim env
      ([msg_split],
       Return (URL.create
                 (Os.getenv_default env "DB_DRIVER" "postgresql+psycopg")
                 (Some u) (Some p) (Some h) (Some port) (Some n)
                 (if PyStr.contains "azure.com" h
                  then {["sslmode" := "require"]} else ∅)))
| resolved_nothing port :
    PyInt.parse lim (port_text env) = Some port →
    unset_or_empty (Os.getenv env "DATABASE_URL") →
    unset_or_empty (Os.getenv env "AZURE_POSTGRESQL_CONNECTIONSTRING") →
    unset_or_empty (py_or (Os.getenv env "DBHOST") (Os.getenv env "DB_HOST")) ∨
    unset_or_empty (py_or (Os.getenv env "DBNAME") (Os.getenv env "DB_NAME")) ∨
    unset_or_empty (py_or (Os.getenv env "DBUSER") (Os.getenv env "DB_USER")) ∨
    unset_or_empty (py_or (Os.getenv env "DBPASS") (Os.getenv env "DB_PASSWORD")) →
    resolution lim env ([], Raise (RuntimeError msg_no_config)).

(** ** Example environments *)

Definition example_url : string :=
  "postgresql+psycopg://u:p@db.internal:5432/app".

(** The environment of the specification's first example. *)
Definition env_split_example : Os.environ :=
  list_to_map [("DB_HOST", "db.internal"); ("DB_NAME", "app");
               ("DB_USER", "u"); ("DB_PASSWORD", "p")].

Definition env_url_only : Os.environ :=
  list_to_map [("DATABASE_URL", example_url)].

Definition env_url_others : Os.environ :=
  list_to_map [("DATABASE_URL", example_url);
               ("AZURE_POSTGRESQL_CONNECTIONSTRING", "host=h");
               ("DBHOST", "elsewhere"); ("DB_PORT", " 6543 ")].

Definition env_url_bad_port : Os.environ :=
  list_to_map [("DATABASE_URL", example_url); ("DBPORT", "abc")].

Definition env_url_two_ports : Os.environ :=
  list_to_map [("DATABASE_URL", example_url); ("DBPORT", "8080");
               ("DB_PORT", "abc")].

Definition env_azure_empty : Os.environ :=
  list_to_map [("AZURE_POSTGRESQL_CONNECTIONSTRING", "");
               ("DB_HOST", "db.internal"); ("DB_NAME", "app");
               ("DB_USER", "u"); ("DB_PASSWORD", "p")].

Definition env_azure_no_password : Os.environ :=
  list_to_map [("AZURE_POSTGRESQL_CONNECTIONSTRING",
                "host=h port=5432 dbname=d user=u password=");
               ("DB_HOST", "db.internal"); ("DB_NAME", "app");
               ("DB_USER", "u"); ("DB_PASSWORD", "p")].

Definition env_azure_no_password_bad_port : Os.environ :=
  list_to_map [("AZURE_POSTGRESQL_CONNECTIONSTRING",
                "host=h port=5432 dbname=d user=u password=");
               ("DBPORT", "abc")].

Definition env_azure_example : Os.environ :=
  list_to_map [("AZURE_POSTGRESQL_CONNECTIONSTRING",
                "host=h port=5432 dbname=d user=u password=pw")].

Definition env_azure_bad_port_key : Os.environ :=
  list_to_map [("AZURE_POSTGRESQL_CONNECTIONSTRING",
                "host=h port=abc dbname=d user=u password=pw")].

Definition env_azure_bad_port_var : Os.environ :=
  list_to_map [("AZURE_POSTGRESQL_CONNECTIONSTRING",
                "host=h dbname=d user=u password=pw");
               ("DB_PORT", "abc")].

Definition env_split_azure_host : Os.environ :=
  list_to_map [("DBHOST", "srv.postgres.database.azure.com");
               ("DBNAME", "app"); ("DBUSER", "u"); ("DBPASS", "p")].

Definition env_only_bad_port : Os.environ :=
  list_to_map [("DBPORT", "abc")].

Definition env_host_only : Os.environ :=
  list_to_map [("DBHOST", "db.internal"); ("DATABASE_URL", "")].

Definition env_both_forms : Os.environ :=
  list_to_map [("DBHOST", "short.host"); ("DB_HOST", "prefixed.host");
               ("DBNAME", ""); ("DB_NAME", "prefixed_name");
               ("DB_USER", "prefixed_user");
               ("DBPASS", "short_pw"); ("DB_PASSWORD", "prefixed_pw");
               ("DBPORT", "6000"); ("DB_PORT", "7000")].

(** ** Connection strings written from pairs *)

Module ConnStr.

(** [" ".join(tokens)]. *)
Fixpoint join (tokens : list string) : string :=
  match tokens with
  | [] => ""
  | [t] => t
  | t :: (_ :: _) as rest => t ++ " " ++ join rest
  end.

(** The token [key=value]. *)
Definition token (kv : string * string) : string := kv.1 ++ "=" ++ kv.2.

(** The connection string with one token per pair, in the order of the
    list: the format of the docstring of [parse_azure_conn_str]. *)
Definition of_pairs (pairs : list (string * string)) : string :=
  join (map token pairs).

(** A pair that a token can carry: no whitespace in the key or the value,
    no ['='] in the key. *)
Definition plain (kv : string * string) : Prop :=
  PyStr.nospace kv.1 = true ∧ PyStr.lacks "=" kv.1 = true ∧
  PyStr.nospace kv.2 = true.

End ConnStr.

(** ** When [build_url] returns a descriptor *)

(** The connection string [conn] has the four required entries, and its
    [port] entry, if any, converts. *)
Definition azure_usable (lim : nat) (conn : string) : Prop :=
  (∀ k, k ∈ required →
        ∃ v, parse_azure_conn_str conn !! k = Some v ∧ v ≠ "") ∧
  (∀ s, parse_azure_conn_str conn !! "port" = Some s →
        is_Some (PyInt.parse lim s)).

(** The four split values are all non-empty. *)
Definition split_usable (env : Os.environ) : Prop :=
  ¬ unset_or_empty (py_or (Os.getenv env "DBHOST") (Os.getenv env "DB_HOST")) ∧
  ¬ unset_or_empty (py_or (Os.getenv env "DBNAME") (Os.getenv env "DB_NAME")) ∧
  ¬ unset_or_empty (py_or (Os.getenv env "DBUSER") (Os.getenv env "DB_USER")) ∧
  ¬ unset_or_empty
      (py_or (Os.getenv env "DBPASS") (Os.getenv env "DB_PASSWORD")).

(** Two environments that [build_url] cannot tell apart: they agree, up to
    the difference between unset and empty, on every variable but
    [DB_DRIVER], and on [DB_DRIVER] itself. *)
Definition same_settings (env env' : Os.environ) : Prop :=
  (∀ name, when_truthy (Os.getenv env' name) = when_truthy (Os.getenv env name)) ∧
  Os.getenv env' "DB_DRIVER" = Os.getenv env "DB_DRIVER".

(** The six entries of a connection string that [build_url] reads. *)
Definition azure_keys : list string :=
  ["host"; "dbname"; "user"; "password"; "port"; "sslmode"].

(** The value [value] that the pair of names [short], [prefixed] yields:
    the short name is set to it, or the short name is unset or empty and
    the prefixed name is set to it; either way it is non-empty. *)
Definition chosen (env : Os.environ) (short prefixed value : string) : Prop :=
  value ≠ "" ∧
  (Os.getenv env short = Some value ∨
   (unset_or_empty (Os.getenv env short) ∧
    Os.getenv env prefixed = Some value)).

(** ** More example environments *)

Definition env_split_bad_port : Os.environ :=
  list_to_map [("DB_HOST", "srv.postgres.database.azure.com");
               ("DB_NAME", "app"); ("DB_USER", "u"); ("DB_PASSWORD", "p");
               ("DBPORT", "abc")].

Definition env_azure_full : Os.environ :=
  list_to_map [("AZURE_POSTGRESQL_CONNECTIONSTRING",
                "host=h port=6000 dbname=d user=u password=pw sslmode=disable");
               ("DBPORT", "7000"); ("DBHOST", "other.host");
               ("DB_DRIVER", "postgresql+psycopg2")].

Definition env_azure_full_other : Os.environ :=
  list_to_map [("AZURE_POSTGRESQL_CONNECTIONSTRING",
                "host=h port=6000 dbname=d user=u password=pw sslmode=disable");
               ("DB_HOST", "db.internal"); ("DB_NAME", "app");
               ("DB_USER", "u2"); ("DB_PASSWORD", "p2"); ("DB_PORT", "1");
               ("DATABASE_URL", ""); ("DB_DRIVER", "postgresql+psycopg2")].

Definition env_empty_driver : Os.environ :=
  list_to_map [("DB_HOST", "db.internal"); ("DB_NAME", "app");
               ("DB_USER", "u"); ("DB_PASSWORD", "p"); ("DB_DRIVER", "")].

Definition env_empty_short_names : Os.environ :=
  list_to_map [("DBHOST", ""); ("DB_HOST", "db.internal"); ("DB_NAME", "app");
               ("DB_USER", "u"); ("DB_PASSWORD", "p"); ("DBPORT", "");
               ("DB_PORT", "6543")].

(** * Properties of the string built-ins *)

Module PyStrFacts.
Import PyStr.
Local Open Scope string_scope.

Lemma truthy_true (s : string) : truthy s = true ↔ s ≠ "".
Proof. destruct s; simpl; split; congruence. Qed.

Lemma truthy_false (s : string) : truthy s = false ↔ s = "".
Proof. destruct s; simpl; split; congruence. Qed.

Lemma app_cons (c : ascii) (a b : string) :
  String c a ++ b = String c (a ++ b).
Proof. reflexivity. Qed.

Lemma app_nil_l (a : string) : "" ++ a = a.
Proof. reflexivity. Qed.

Lemma app_nil_r (s : string) : s ++ "" = s.
Proof.
  induction s as [|c s IH]; [reflexivity |]. now rewrite app_cons, IH.
Qed.

Lemma app_assoc (a b c : string) : (a ++ b) ++ c = a ++ b ++ c.
Proof.
  induction a as [|x a IH]; [reflexivity |]. now rewrite !app_cons, IH.
Qed.

Lemma nospace_app (a b : string) :
  nospace (a ++ b) = nospace a && nospace b.
Proof.
  induction a as [|c a IH]; [reflexivity |].
  rewrite app_cons. simpl. rewrite IH. now rewrite andb_assoc.
Qed.

Lemma startswith_char (a c : ascii) (s : string) :
  startswith (String a "") (String c s) = Ascii.eqb c a.
Proof. cbn [startswith]. now rewrite andb_true_r, Ascii.eqb_sym. Qed.

Lemma truthy_app_char (tok : string) (c : ascii) :
  truthy (tok ++ String c "") = true.
Proof. destruct tok; reflexivity. Qed.

(** Every token that [split] produces is non-empty and free of
    whitespace. *)
Lemma split_from_tokens (s tok : string) :
  nospace tok = true →
  Forall (λ t, truthy t = true ∧ nospace t = true) (split_from tok s).
Proof.
  revert tok. induction s as [|c s IH]; intros tok Htok; simpl.
  - destruct (truthy tok) eqn:E; constructor; auto.
  - destruct (PyChar.isspace c) eqn:Hc.
    + destruct (truthy tok) eqn:E.
      * constructor; [auto | apply IH; reflexivity].
      * apply IH; reflexivity.
    + apply IH. rewrite nospace_app, Htok. simpl. now rewrite Hc.
Qed.

Lemma split_tokens (s : string) :
  Forall (λ t, truthy t = true ∧ nospace t = true) (split s).
Proof. apply split_from_tokens. reflexivity. Qed.

(** [split] on runs of whitespace of several kinds, and on none. *)
Example split_examples :
  split " a  b=c" = ["a"; "b=c"] ∧
  split (String "009" "x" ++ String "010" "y" ++ String "031" "z")
  = ["x"; "y"; "z"] ∧
  split "" = [] ∧ split "   " = [] ∧ split "a=b" = ["a=b"].
Proof. split_and!; reflexivity. Qed.

Lemma lstrip_nospace (s : string) : nospace s = true → lstrip s = s.
Proof.
  destruct s as [|c s]; simpl; [reflexivity |].
  intros [Hc _]%andb_true_iff. apply negb_true_iff in Hc. now rewrite Hc.
Qed.

Lemma rstrip_nospace (s : string) : nospace s = true → rstrip s = s.
Proof.
  induction s as [|c s IH]; simpl; [reflexivity |].
  intros [Hc Hs]%andb_true_iff. apply negb_true_iff in Hc.
  rewrite (IH Hs), Hc. now destruct s.
Qed.

(** [strip] leaves a string without whitespace as it is. *)
Lemma strip_nospace (s : string) : nospace s = true → strip s = s.
Proof.
  intros H. unfold strip. rewrite (lstrip_nospace _ H).
  now apply rstrip_nospace.
Qed.

(** [split_once] cuts at the first occurrence of the separator. *)
Lemma split_once_Some (sep : ascii) (s k v : string) :
  split_once sep s = Some (k, v) ↔ s = k ++ String sep v ∧ lacks sep k = true.
Proof.
  revert k v. induction s as [|c s IH]; intros k v; simpl.
  - split; [discriminate |]. intros [H _]. destruct k; discriminate.
  - destruct (Ascii.eqb_spec c sep) as [->|Hne].
    + split.
      * intros [= <- <-]. split; reflexivity.
      * intros [H Hk]. destruct k as [|a k]; simpl in *.
        -- now injection H as ->.
        -- injection H as <- _. now rewrite Ascii.eqb_refl in Hk.
    + destruct (split_once sep s) as [[k' v']|] eqn:E.
      * split.
        -- intros [= <- <-]. destruct (proj1 (IH k' v') eq_refl) as [-> Hk].
           split; [reflexivity |]. simpl. rewrite Hk.
           now apply Ascii.eqb_neq in Hne as ->.
        -- intros [H Hk]. destruct k as [|a k]; rewrite ?app_cons, ?app_nil_l in H.
           ++ injection H as -> _. congruence.
           ++ injection H as <- ->. simpl in Hk.
              apply andb_true_iff in Hk as [_ Hk].
              assert (Some (k', v') = Some (k, v)) as [= -> ->]
                by (apply IH; auto).
              reflexivity.
      * split; [discriminate |]. intros [H Hk].
        destruct k as [|a k]; rewrite ?app_cons, ?app_nil_l in H.
        -- injection H as -> _. congruence.
        -- injection H as <- ->. simpl in Hk.
           apply andb_true_iff in Hk as [_ Hk].
           assert (None = Some (k, v)) by (apply IH; auto). discriminate.
Qed.

(** [sep in s] holds exactly when [s.split(sep, 1)] has two parts. *)
Lemma contains_char (sep : ascii) (s : string) :
  contains (String sep "") s = true ↔ is_Some (split_once sep s).
Proof.
  induction s as [|c s IH]; simpl.
  - split; [discriminate | intros [? [=]]].
  - rewrite (Ascii.eqb_sym sep c).
    destruct (Ascii.eqb c sep); simpl; [split; eauto |].
    rewrite IH. destruct (split_once sep s) as [[k v]|]; split; eauto;
      intros [? [=]].
Qed.

Lemma contains_char_false (sep : ascii) (s : string) :
  contains (String sep "") s = false ↔ lacks sep s = true.
Proof.
  induction s as [|c s IH]; simpl; [split; reflexivity |].
  rewrite (Ascii.eqb_sym sep c).
  destruct (Ascii.eqb c sep); simpl; [split; discriminate | exact IH].
Qed.

End PyStrFacts.

(** * Properties of [parse_azure_conn_str] *)

Module ParseFacts.
Import PyStr PyStrFacts.
Local Open Scope string_scope.

(** What one token does to the dictionary, once [strip] is known to
    change nothing. *)
Lemma parse_token_nospace (parts : gmap string string) (token : string) :
  nospace token = true →
  parse_token parts token =
    match split_once "=" token with
    | Some (k, v) => <[k := v]> parts
    | None => parts
    end.
Proof.
  intros Hns. unfold parse_token.
  destruct (split_once "=" token) as [[k v]|] eqn:E.
  - assert (contains "=" token = true) as ->
      by (apply contains_char; rewrite E; eauto).
    apply split_once_Some in E as [-> _].
    rewrite nospace_app in Hns. simpl in Hns.
    apply andb_true_iff in Hns as [Hk Hv].
    now rewrite !strip_nospace.
  - now destruct (contains "=" token).
Qed.

(** A token without ['='] is skipped. *)
Lemma parse_token_skip (parts : gmap string string) (token : string) :
  contains "=" token = false → parse_token parts token = parts.
Proof. intros H. unfold parse_token. now rewrite H. Qed.

(** A token is cut at its first ['=']: the value keeps any further one. *)
Lemma parse_token_bind (parts : gmap string string) (k v : string) :
  lacks "=" k = true → nospace k = true → nospace v = true →
  parse_token parts (k ++ "=" ++ v) = <[k := v]> parts.
Proof.
  intros Hk Hnk Hnv. rewrite parse_token_nospace.
  - assert (split_once "=" (k ++ "=" ++ v) = Some (k, v)) as ->
      by (apply split_once_Some; auto).
    reflexivity.
  - rewrite nospace_app, Hnk. simpl. exact Hnv.
Qed.

Lemma fold_tokens_snoc (ts : list string) (t : string)
    (parts : gmap string string) :
  fold_left parse_token (ts ++ [t])%list parts
  = parse_token (fold_left parse_token ts parts) t.
Proof. now rewrite fold_left_app. Qed.

(** The entry of [key] after the loop is the value of the last token whose
    text before its first ['='] is [key]. *)
Lemma fold_tokens_lookup (ts : list string) (key value : string) :
  Forall (λ t, nospace t = true) ts →
  fold_left parse_token ts ∅ !! key = Some value ↔
  ∃ before after : list string,
    ts = (before ++ (key ++ "=" ++ value)%string :: after)%list ∧
    lacks "=" key = true ∧
    ∀ t v', t ∈ after → t ≠ key ++ "=" ++ v'.
Proof.
  induction ts as [|t ts IH] using rev_ind; intros Hts.
  - simpl. rewrite lookup_empty. split; [discriminate |].
    intros (before & after & H & _). now destruct before.
  - apply Forall_app in Hts as [Hts Ht]. apply Forall_inv in Ht.
    specialize (IH Hts). rewrite fold_tokens_snoc, parse_token_nospace by done.
    destruct (split_once "=" t) as [[k v]|] eqn:E.
    + apply split_once_Some in E as [-> Hk].
      destruct (decide (k = key)) as [->|Hne].
      * rewrite lookup_insert_eq. split.
        -- intros [= ->]. exists ts, []. split_and!; [done.. |].
           intros t v' Hin. now apply elem_of_nil in Hin.
        -- intros (before & after & H & _ & Hlast).
           destruct after as [|a after _] using rev_ind.
           ++ apply app_inj_tail in H as [_ H].
              f_equal. now apply (inj (String.app key)) in H as [= ->].
           ++ rewrite app_comm_cons, List.app_assoc in H.
              apply app_inj_tail in H as [_ <-].
              exfalso. apply (Hlast (key ++ "=" ++ v) v); [| done].
              apply elem_of_app. right. apply list_elem_of_singleton. done.
      * rewrite lookup_insert_ne by done. rewrite IH. split.
        -- intros (before & after & -> & Hkey & Hlast).
           exists before, (after ++ [(k ++ "=" ++ v)%string])%list. split_and!.
           ++ now rewrite <- List.app_assoc.
           ++ done.
           ++ intros t v' [Hin|Hin%list_elem_of_singleton]%elem_of_app;
                [now apply Hlast |].
              subst t. intros Heq.
              assert (Some (k, v) = Some (key, v')) as [= ? ?]; [| done].
              rewrite <- (proj2 (split_once_Some "=" (k ++ "=" ++ v) k v))
                by done.
              now apply split_once_Some.
        -- intros (before & after & H & Hkey & Hlast).
           destruct after as [|a after _] using rev_ind.
           ++ apply app_inj_tail in H as [_ H]. exfalso. apply Hne.
              assert (Some (k, v) = Some (key, value)) as [= ? ?]; [| done].
              rewrite <- (proj2 (split_once_Some "=" (k ++ "=" ++ v) k v))
                by done.
              now apply split_once_Some.
           ++ rewrite app_comm_cons, List.app_assoc in H.
              apply app_inj_tail in H as [-> <-].
              exists before, after. split_and!; [done.. |].
              intros t v' Hin. apply Hlast, elem_of_app. now left.
    + rewrite IH. split.
      * intros (before & after & -> & Hkey & Hlast).
        exists before, (after ++ [t])%list. split_and!.
        -- now rewrite <- List.app_assoc.
        -- done.
        -- intros t' v' [Hin|Hin%list_elem_of_singleton]%elem_of_app;
             [now apply Hlast |].
           subst t'. intros ->.
           assert (split_once "=" (key ++ "=" ++ v') = Some (key, v'))
             by now apply split_once_Some.
           congruence.
      * intros (before & after & H & Hkey & Hlast).
        destruct after as [|a after _] using rev_ind.
        -- apply app_inj_tail in H as [_ ->].
           assert (split_once "=" (key ++ "=" ++ value) = Some (key, value))
             by now apply split_once_Some.
           congruence.
        -- rewrite app_comm_cons, List.app_assoc in H.
           apply app_inj_tail in H as [-> <-].
           exists before, after. split_and!; [done.. |].
           intros t' v' Hin. apply Hlast, elem_of_app. now left.
Qed.

End ParseFacts.

(** * Properties of [int()] *)

Module PyIntFacts.
Import PyInt.

Lemma int_Some (lim : nat) (s : string) (n : Z) :
  parse lim s = Some n → int lim s = ([], Return n).
Proof. intros H. unfold int. now rewrite H. Qed.

Lemma int_None (lim : nat) (s : string) :
  parse lim s = None → int lim s = ([], Raise ValueError).
Proof. intros H. unfold int. now rewrite H. Qed.

(** The default port converts whatever the digit limit is. *)
Lemma parse_default_port (lim : nat) : parse lim "5432" = Some 5432%Z.
Proof. reflexivity. Qed.

(** What converts under a digit limit converts without one. *)
Lemma parse_no_limit (lim : nat) (s : string) (n : Z) :
  parse lim s = Some n → parse 0 s = Some n.
Proof.
  unfold parse. destruct (take_sign (skip_space s)) as [sign body].
  destruct (PyStr.startswith "_" body); [done |].
  destruct (scan false 0 0 body) as [[[v d] rest]|]; [| done].
  destruct (exceeds_limit lim d); [done |].
  assert (exceeds_limit 0 d = false) as ->; [| done].
  unfold exceeds_limit. simpl. now rewrite andb_false_r.
Qed.

(** [int()] on some strings: signs, surrounding whitespace, underscores
    between digits, leading zeros; and what it refuses. *)
Example parse_examples :
  parse 4300 "5432" = Some 5432%Z ∧ parse 4300 " 12 " = Some 12%Z ∧
  parse 4300 "+5" = Some 5%Z ∧ parse 4300 "-5" = Some (-5)%Z ∧
  parse 4300 "1_000" = Some 1000%Z ∧ parse 4300 "012" = Some 12%Z ∧
  parse 4300 "" = None ∧ parse 4300 "abc" = None ∧ parse 4300 "- 5" = None ∧
  parse 4300 "_1" = None ∧ parse 4300 "1_" = None ∧
  parse 4300 "1__2" = None ∧ parse 4300 "1 2" = None ∧
  parse 4300 "0x10" = None ∧ parse 4300 "5432.0" = None ∧
  parse 4300 (String "028" "1") = None.
Proof. split_and!; reflexivity. Qed.

End PyIntFacts.

(** ** [int()] accepts exactly the integer literals *)

Module LiteralFacts.
Import PyInt Literal.
Local Open Scope string_scope.

Lemma space_not_digit (c : ascii) :
  PyChar.int_isspace c = true → PyChar.digit c = None.
Proof.
  destruct c as [[] [] [] [] [] [] [] []]; intros H;
    first [reflexivity | discriminate H].
Qed.

Lemma digit_not_underscore (c : ascii) :
  isdigit c = true → Ascii.eqb c "_" = false.
Proof.
  destruct c as [[] [] [] [] [] [] [] []]; intros H;
    first [reflexivity | discriminate H].
Qed.

Lemma space_not_underscore (c : ascii) :
  PyChar.int_isspace c = true → Ascii.eqb c "_" = false.
Proof.
  destruct c as [[] [] [] [] [] [] [] []]; intros H;
    first [reflexivity | discriminate H].
Qed.

Lemma digit_not_space (c : ascii) :
  isdigit c = true → PyChar.int_isspace c = false.
Proof.
  destruct c as [[] [] [] [] [] [] [] []]; intros H;
    first [reflexivity | discriminate H].
Qed.

Lemma digit_no_sign (c : ascii) (s : string) :
  isdigit c = true → take_sign (String c s) = (1%Z, String c s).
Proof.
  destruct c as [[] [] [] [] [] [] [] []]; intros H;
    first [reflexivity | discriminate H].
Qed.

Lemma isdigit_Some (c : ascii) :
  isdigit c = true → ∃ d, PyChar.digit c = Some d.
Proof. unfold isdigit. destruct (PyChar.digit c); [eauto | discriminate]. Qed.

Lemma spaces_skip (s : string) : spaces s ↔ skip_space s = "".
Proof.
  split.
  - induction 1 as [|c s Hc _ IH]; simpl; [reflexivity | now rewrite Hc].
  - induction s as [|c s IH]; simpl; [constructor |].
    destruct (PyChar.int_isspace c) eqn:Hc; [| discriminate].
    intros H. constructor; auto.
Qed.

Lemma literal_skip (s : string) : literal (skip_space s) → literal s.
Proof.
  induction s as [|c s IH]; simpl; [auto |].
  destruct (PyChar.int_isspace c) eqn:Hc; [| auto].
  intros H. apply literal_space; auto.
Qed.

(** What the digit loop has read is a tail of the grammar, or, right after
    an underscore, an unsigned literal. *)
Lemma scan_tail (s : string) :
  ∀ prev acc n v n' rest,
    scan prev acc n s = Some (v, n', rest) →
    skip_space rest = "" →
    if prev then unsigned s else tail s.
Proof.
  induction s as [|c s IH]; intros prev acc n v n' rest; simpl.
  - destruct prev; [discriminate |]. intros _ _. apply tail_end, spaces_nil.
  - destruct (Ascii.eqb_spec c "_") as [->|Hc].
    + destruct prev; [discriminate |]. intros Hscan Hrest.
      specialize (IH true _ _ _ _ _ Hscan Hrest). simpl in IH.
      destruct IH as [d s' Hd Hs']. now apply tail_underscore.
    + destruct (PyChar.digit c) as [d|] eqn:Hd.
      * intros Hscan Hrest. specialize (IH false _ _ _ _ _ Hscan Hrest).
        simpl in IH.
        assert (isdigit c = true) by (unfold isdigit; now rewrite Hd).
        destruct prev; [now apply unsigned_intro | now apply tail_digit].
      * destruct prev; [discriminate |]. intros [= _ _ <-] Hrest.
        now apply tail_end, spaces_skip.
Qed.

(** Soundness: what [int()] converts is a literal. *)
Lemma parse_literal (lim : nat) (s : string) (n : Z) :
  parse lim s = Some n → literal s.
Proof.
  unfold parse. intros H. apply literal_skip, literal_signed.
  destruct (take_sign (skip_space s)) as [sign body] eqn:Hsign.
  destruct (PyStr.startswith "_" body) eqn:Hus; [discriminate |].
  destruct (scan false 0 0 body) as [[[v d] rest]|] eqn:Hscan; [| discriminate].
  destruct (exceeds_limit lim d); [discriminate |].
  destruct (d =? 0)%nat eqn:Hd; [discriminate |].
  destruct (skip_space rest) eqn:Hrest; [| discriminate].
  assert (unsigned body) as Hbody.
  { destruct body as [|c body']; simpl in Hscan.
    - injection Hscan as _ <- _. discriminate.
    - rewrite PyStrFacts.startswith_char in Hus. rewrite Hus in Hscan.
      destruct (PyChar.digit c) as [dc|] eqn:Hc;
        [| injection Hscan as _ <- _; discriminate].
      apply unsigned_intro; [unfold isdigit; now rewrite Hc |].
      exact (scan_tail _ false _ _ _ _ _ Hscan Hrest). }
  unfold take_sign in Hsign.
  destruct (skip_space s) as [|c t]; [injection Hsign as _ <-; inversion Hbody |].
  destruct (Ascii.eqb_spec c "+") as [->|Hplus].
  { injection Hsign as _ <-. now apply signed_plus. }
  destruct (Ascii.eqb_spec c "-") as [->|Hminus].
  { injection Hsign as _ <-. now apply signed_minus. }
  assert (body = String c t) as <-; [| now apply signed_none].
  clear -Hsign Hplus Hminus.
  destruct c as [[] [] [] [] [] [] [] []];
    first [now injection Hsign as _ <- | congruence].
Qed.

(** The digit loop runs through a tail of the grammar. *)
Lemma tail_scan (s : string) :
  tail s →
  ∀ acc n, ∃ v n' rest,
    scan false acc n s = Some (v, n', rest) ∧ (n ≤ n')%nat ∧
    skip_space rest = "".
Proof.
  induction 1 as [ws Hws|c s Hc _ IH|c s Hc _ IH]; intros acc n.
  - destruct Hws as [|c ws Hc Hws]; simpl; [eauto 6 |].
    rewrite (space_not_underscore c Hc), (space_not_digit c Hc).
    exists acc, n, (String c ws). split_and!; [done | lia |].
    apply spaces_skip. now constructor.
  - simpl. rewrite (digit_not_underscore c Hc).
    destruct (isdigit_Some c Hc) as [d ->].
    destruct (IH (10 * acc + d)%Z (S n)) as (v & n' & rest & -> & ? & ?).
    exists v, n', rest. split_and!; [done | lia | done].
  - simpl. rewrite (digit_not_underscore c Hc).
    destruct (isdigit_Some c Hc) as [d ->].
    destruct (IH (10 * acc + d)%Z (S n)) as (v & n' & rest & -> & ? & ?).
    exists v, n', rest. split_and!; [done | lia | done].
Qed.

Lemma unsigned_parse (sign : Z) (body : string) :
  unsigned body →
  ∃ n, (if PyStr.startswith "_" body then None
        else match scan false 0 0 body with
             | None => None
             | Some (v, digits, rest) =>
                 if exceeds_limit 0 digits then None
                 else if (digits =? 0)%nat then None
                 else match skip_space rest with
                      | "" => Some (sign * v)%Z
                      | String _ _ => None
                      end
             end) = Some n.
Proof.
  intros [c s Hc Hs].
  assert (PyStr.startswith "_" (String c s) = false) as ->.
  { now rewrite PyStrFacts.startswith_char, (digit_not_underscore c Hc). }
  simpl. rewrite (digit_not_underscore c Hc).
  destruct (isdigit_Some c Hc) as [d ->].
  destruct (tail_scan s Hs (10 * 0 + d)%Z 1) as (v & n' & rest & -> & Hn & ->).
  assert (exceeds_limit 0 n' = false) as ->.
  { unfold exceeds_limit. simpl. now rewrite andb_false_r. }
  destruct n' as [|n']; [lia |]. simpl. eauto.
Qed.

(** Completeness: without a digit limit, [int()] converts every literal. *)
Lemma literal_parse (s : string) : literal s → is_Some (parse 0 s).
Proof.
  induction 1 as [c s Hc _ IH|s Hs].
  - unfold parse in *. simpl. now rewrite Hc.
  - unfold parse.
    assert (∃ sign body, skip_space s = s ∧ take_sign s = (sign, body)
                         ∧ unsigned body) as (sign & body & -> & -> & Hbody).
    { destruct Hs as [s Hs|s Hs|s Hs].
      - exists 1%Z, s. split_and!; done.
      - exists (-1)%Z, s. split_and!; done.
      - destruct Hs as [c s Hc Hs]. exists 1%Z, (String c s). split_and!.
        + simpl. now rewrite (digit_not_space c Hc).
        + now apply digit_no_sign.
        + now constructor. }
    destruct (unsigned_parse sign body Hbody) as [n Hn]. eauto.
Qed.

Lemma literal_iff (s : string) : literal s ↔ is_Some (parse 0 s).
Proof.
  split; [apply literal_parse |]. intros [n Hn]. eapply parse_literal, Hn.
Qed.

(** A string that is not a literal is refused, whatever the digit limit. *)
Lemma not_literal_refused (lim : nat) (s : string) :
  ¬ literal s → parse lim s = None.
Proof.
  intros H. destruct (parse lim s) as [n|] eqn:E; [| reflexivity].
  exfalso. eauto using parse_literal.
Qed.

End LiteralFacts.

(** * Properties of [build_url] *)

Lemma truthy_false_iff (v : option string) :
  truthy v = false ↔ unset_or_empty v.
Proof.
  unfold unset_or_empty. destruct v as [[|c s]|]; simpl; split; auto;
    try discriminate; intros [H|H]; discriminate.
Qed.

Lemma truthy_true_iff (v : option string) :
  truthy v = true ↔ ∃ s, v = Some s ∧ s ≠ "".
Proof.
  destruct v as [[|c s]|]; simpl; split; try discriminate.
  - intros (s & H & Hs). congruence.
  - intros _. eexists. split; [reflexivity | discriminate].
  - reflexivity.
  - intros (s & H & _). discriminate.
Qed.

Lemma when_truthy_Some (v : option string) (s : string) :
  when_truthy v = Some s ↔ v = Some s ∧ s ≠ "".
Proof.
  destruct v as [[|c t]|]; simpl; split; try discriminate.
  - intros [H Hs]. congruence.
  - intros [= <-]. split; [reflexivity | discriminate].
  - intros [H _]. congruence.
  - intros [H _]. discriminate.
Qed.

Lemma when_truthy_None (v : option string) :
  when_truthy v = None ↔ unset_or_empty v.
Proof.
  unfold unset_or_empty. destruct v as [[|c t]|]; simpl; split; auto;
    try discriminate; intros [H|H]; discriminate.
Qed.

(** [a or b] is [a] when [a] is a non-empty string, and [b] otherwise. *)
Lemma py_or_left (a b : option string) (s : string) :
  a = Some s → s ≠ "" → py_or a b = Some s.
Proof. intros -> H. unfold py_or. simpl. now destruct s. Qed.

Lemma py_or_right (a b : option string) :
  unset_or_empty a → py_or a b = b.
Proof. intros H%truthy_false_iff. unfold py_or. now rewrite H. Qed.

Lemma py_or_str_Some (s dflt : string) :
  s ≠ "" → py_or_str (Some s) dflt = s.
Proof. intros H. simpl. now destruct s. Qed.

Lemma py_or_str_default (a : option string) (dflt : string) :
  unset_or_empty a → py_or_str a dflt = dflt.
Proof. now intros [->| ->]. Qed.

(** Without [DBPORT] and [DB_PORT] the port text is the default. *)
Lemma port_text_default (env : Os.environ) :
  unset_or_empty (Os.getenv env "DBPORT") →
  unset_or_empty (Os.getenv env "DB_PORT") →
  port_text env = "5432".
Proof.
  intros H1 H2. unfold port_text. rewrite (py_or_right _ _ H1).
  now apply py_or_str_default.
Qed.

Section ResolverFacts.

Variable lim : nat.
Variable env : Os.environ.

(** The local variables of [build_url]. *)
Let database_url := Os.getenv env "DATABASE_URL".
Let azure_conn := Os.getenv env "AZURE_POSTGRESQL_CONNECTIONSTRING".
Let host := py_or (Os.getenv env "DBHOST") (Os.getenv env "DB_HOST").
Let name := py_or (Os.getenv env "DBNAME") (Os.getenv env "DB_NAME").
Let user := py_or (Os.getenv env "DBUSER") (Os.getenv env "DB_USER").
Let pwd := py_or (Os.getenv env "DBPASS") (Os.getenv env "DB_PASSWORD").
Let driver := Os.getenv_default env "DB_DRIVER" "postgresql+psycopg".

(** The port is converted first: a failure ends [build_url] before any
    branch is looked at and before anything is logged. *)
Lemma build_url_port_error :
  PyInt.parse lim (port_text env) = None →
  build_url lim env = ([], Raise ValueError).
Proof.
  intros H. unfold build_url. now rewrite (PyIntFacts.int_None _ _ H).
Qed.

Section PortConverts.

Variable port : Z.
Hypothesis Hport : PyInt.parse lim (port_text env) = Some port.

Lemma build_url_path1 (url : string) :
  when_truthy database_url = Some url →
  build_url lim env
  = ([msg_database_url], Return (URL.create_positional url)).
Proof.
  intros H. unfold build_url. rewrite (PyIntFacts.int_Some _ _ _ Hport).
  fold database_url. now rewrite H.
Qed.

Lemma build_url_path2 (conn : string) :
  when_truthy database_url = None →
  when_truthy azure_conn = Some conn →
  build_url lim env = build_from_azure lim driver conn.
Proof.
  intros H1 H2. unfold build_url.
  rewrite (PyIntFacts.int_Some _ _ _ Hport).
  fold database_url azure_conn driver. rewrite H1, H2.
  simpl. now destruct (build_from_azure lim driver conn).
Qed.

Lemma build_url_path3 :
  when_truthy database_url = None →
  when_truthy azure_conn = None →
  forallb truthy [host; name; user; pwd] = true →
  build_url lim env
  = ([msg_split],
     Return (URL.create driver user pwd host (Some port) name
               (if PyStr.contains "azure.com" (py_or_str host "")
                then {["sslmode" := "require"]} else ∅))).
Proof.
  intros H1 H2 H3. unfold build_url.
  rewrite (PyIntFacts.int_Some _ _ _ Hport).
  fold database_url azure_conn driver host name user pwd.
  now rewrite H1, H2, H3.
Qed.

Lemma build_url_path4 :
  when_truthy database_url = None →
  when_truthy azure_conn = None →
  forallb truthy [host; name; user; pwd] = false →
  build_url lim env = ([], Raise (RuntimeError msg_no_config)).
Proof.
  intros H1 H2 H3. unfold build_url.
  rewrite (PyIntFacts.int_Some _ _ _ Hport).
  fold database_url azure_conn driver host name user pwd.
  now rewrite H1, H2, H3.
Qed.

End PortConverts.

End ResolverFacts.

(** ** The branch for [AZURE_POSTGRESQL_CONNECTIONSTRING] *)

Lemma present_truthy (d : gmap string string) (k : string) :
  present d k = truthy (d !! k).
Proof. unfold present, truthy. now destruct (d !! k). Qed.

(** The test [all(k in d and d[k] for k in required)] fails exactly when
    one of the four keys is missing or empty. *)
Lemma required_incomplete (d : gmap string string) :
  forallb (present d) required = false ↔
  ∃ k, k ∈ required ∧ unset_or_empty (d !! k).
Proof.
  unfold required. split.
  - simpl. rewrite andb_true_r, !andb_false_iff, !present_truthy,
      !truthy_false_iff.
    intros [H|[H|[H|H]]]; eexists; (split; [| exact H]); set_solver.
  - intros (k & Hk & E%truthy_false_iff).
    rewrite !elem_of_cons, elem_of_nil in Hk.
    destruct Hk as [->|[->|[->|[->|[]]]]]; simpl; rewrite !present_truthy, E;
      simpl; now rewrite ?andb_false_r.
Qed.

Lemma required_complete (d : gmap string string) :
  forallb (present d) required = true ↔
  ∃ h n u p,
    (d !! "host" = Some h ∧ h ≠ "") ∧ (d !! "dbname" = Some n ∧ n ≠ "") ∧
    (d !! "user" = Some u ∧ u ≠ "") ∧ (d !! "password" = Some p ∧ p ≠ "").
Proof.
  unfold required. simpl. rewrite !present_truthy, !andb_true_iff, !truthy_true_iff.
  split.
  - intros ((h & Hh) & (n & Hn) & (u & Hu) & (p & Hp) & _).
    exists h, n, u, p. tauto.
  - intros (h & n & u & p & Hh & Hn & Hu & Hp). eauto 10.
Qed.

Lemma build_from_azure_resolution (lim : nat) (driver conn : string) :
  azure_resolution lim driver conn (build_from_azure lim driver conn).
Proof.
  unfold build_from_azure.
  destruct (forallb (present (parse_azure_conn_str conn)) required) eqn:E.
  - apply required_complete in E
      as (h & n & u & p & [Hh ?] & [Hn ?] & [Hu ?] & [Hp ?]).
    unfold getitem. cbn. rewrite Hu, Hp, Hh, Hn. cbn.
    destruct (parse_azure_conn_str conn !! "port") as [s|] eqn:Es.
    + unfold PyInt.int. destruct (PyInt.parse lim s) as [port|] eqn:Ep; cbn.
      * eapply azure_descriptor; eauto. now rewrite Es.
      * eapply azure_port_error; eauto.
    + cbn. eapply azure_descriptor; eauto. now rewrite Es.
  - apply required_incomplete in E as (k & Hk & Hd). cbn.
    eapply azure_incomplete; eauto.
Qed.

(** ** The four branches and the conversion before them *)

Lemma all_truthy (a b c d : option string) :
  forallb truthy [a; b; c; d] = true ↔
  ∃ x y z w, (a = Some x ∧ x ≠ "") ∧ (b = Some y ∧ y ≠ "") ∧
             (c = Some z ∧ z ≠ "") ∧ (d = Some w ∧ w ≠ "").
Proof.
  simpl. rewrite !andb_true_iff, !truthy_true_iff. split.
  - intros ((x & Hx) & (y & Hy) & (z & Hz) & (w & Hw) & _).
    exists x, y, z, w. tauto.
  - intros (x & y & z & w & Hx & Hy & Hz & Hw). eauto 10.
Qed.

Lemma not_all_truthy (a b c d : option string) :
  forallb truthy [a; b; c; d] = false ↔
  unset_or_empty a ∨ unset_or_empty b ∨ unset_or_empty c ∨ unset_or_empty d.
Proof.
  simpl. rewrite andb_true_r, !andb_false_iff, !truthy_false_iff. tauto.
Qed.

(** Every run of [build_url] ends in one of these five ways. *)
Lemma build_url_resolution (lim : nat) (env : Os.environ) :
  resolution lim env (build_url lim env).
Proof.
  destruct (PyInt.parse lim (port_text env)) as [port|] eqn:Hport.
  2: { rewrite build_url_port_error by done. now constructor. }
  destruct (when_truthy (Os.getenv env "DATABASE_URL")) as [url|] eqn:Hdb.
  { rewrite (build_url_path1 _ _ _ Hport _ Hdb).
    apply when_truthy_Some in Hdb as [? ?]. econstructor; eauto. }
  destruct (when_truthy (Os.getenv env "AZURE_POSTGRESQL_CONNECTIONSTRING"))
    as [conn|] eqn:Haz.
  { rewrite (build_url_path2 _ _ _ Hport _ Hdb Haz).
    apply when_truthy_None in Hdb. apply when_truthy_Some in Haz as [? ?].
    eapply resolved_azure; eauto using build_from_azure_resolution. }
  destruct (forallb truthy
              [py_or (Os.getenv env "DBHOST") (Os.getenv env "DB_HOST");
               py_or (Os.getenv env "DBNAME") (Os.getenv env "DB_NAME");
               py_or (Os.getenv env "DBUSER") (Os.getenv env "DB_USER");
               py_or (Os.getenv env "DBPASS") (Os.getenv env "DB_PASSWORD")])
    eqn:Hall.
  - rewrite (build_url_path3 _ _ _ Hport Hdb Haz Hall).
    apply when_truthy_None in Hdb, Haz.
    apply all_truthy in Hall
      as (h & n & u & p & [Hh ?] & [Hn ?] & [Hu ?] & [Hp ?]).
    rewrite Hh, Hn, Hu, Hp. rewrite (py_or_str_Some h) by done.
    eapply resolved_split; eauto.
  - rewrite (build_url_path4 _ _ _ Hport Hdb Haz Hall).
    apply when_truthy_None in Hdb, Haz. apply not_all_truthy in Hall.
    eapply resolved_nothing; eauto.
Qed.

(** * The claims *)

(** ** C1: [DATABASE_URL] *)

(** C1, as stated, fails: with [DATABASE_URL] set to a non-empty string and
    [DBPORT] set to [abc], [build_url] converts the port before it looks at
    [DATABASE_URL], raises [ValueError] and returns no descriptor. *)
Lemma database_url_bad_port_raises :
  Os.getenv env_url_bad_port "DATABASE_URL" = Some example_url ∧
  PyStr.truthy example_url = true ∧
  build_url 4300 env_url_bad_port = ([], Raise ValueError).
Proof. split_and!; reflexivity. Qed.

(** C1, amended: in every environment in which [DATABASE_URL] is set to a
    non-empty string and the port text (the first non-empty of [DBPORT] and
    [DB_PORT], else ["5432"]) converts with [int()], [build_url] logs that it
    uses [DATABASE_URL] and returns [URL.create] of that string: a descriptor
    that is a function of the URL value alone, taken as it is, whatever the
    other variables hold. *)
Theorem database_url_used_as_is (lim : nat) (env : Os.environ)
    (url : string) (port : Z) :
  Os.getenv env "DATABASE_URL" = Some url →
  url ≠ "" →
  PyInt.parse lim (port_text env) = Some port →
  build_url lim env = ([msg_database_url], Return (URL.create_positional url)).
Proof.
  intros Hurl Hne Hport. eapply build_url_path1; [exact Hport |].
  now apply when_truthy_Some.
Qed.

Lemma database_url_used_as_is_witness :
  PyInt.parse 4300 (port_text env_url_others) = Some 6543%Z ∧
  build_url 4300 env_url_others
  = ([msg_database_url], Return (URL.create_positional example_url)).
Proof.
  split; [reflexivity |].
  apply (database_url_used_as_is 4300 env_url_others example_url 6543);
    [reflexivity | discriminate | reflexivity].
Defined.

(** ** C2: no partial descriptor *)

(** On the branches for the connection string and for the split variables,
    a returned descriptor has every field set. *)
Lemma azure_descriptor_populated (lim : nat) (driver conn : string)
    (m : M URL.t) (u : URL.t) :
  azure_resolution lim driver conn m →
  result m = Return u → URL.populated u = true.
Proof. intros [] [= <-]; reflexivity. Qed.

Lemma descriptor_populated (lim : nat) (env : Os.environ) (u : URL.t) :
  unset_or_empty (Os.getenv env "DATABASE_URL") →
  result (build_url lim env) = Return u →
  URL.populated u = true.
Proof.
  intros Hdb.
  destruct (build_url_resolution lim env)
    as [| ? url _ Hurl Hne | ? ? ? _ _ _ _ Haz | |]; simpl; intros Hu.
  - discriminate.
  - destruct Hdb; congruence.
  - eauto using azure_descriptor_populated.
  - now injection Hu as <-.
  - discriminate.
Qed.

(** The branch for [DATABASE_URL] returns a descriptor in which only
    [drivername] is set. *)
Lemma database_url_descriptor_fields (lim : nat) (env : Os.environ)
    (url : string) (u : URL.t) :
  Os.getenv env "DATABASE_URL" = Some url → url ≠ "" →
  result (build_url lim env) = Return u →
  u = URL.mk url None None None None None ∅.
Proof.
  intros Hurl Hne.
  destruct (build_url_resolution lim env)
    as [| ? url' _ Hurl' _ | ? ? ? _ Hdb | ? ? ? ? ? _ Hdb |];
    simpl; intros Hu.
  - discriminate.
  - injection Hu as <-. unfold URL.create_positional, URL.create. congruence.
  - destruct Hdb; congruence.
  - destruct Hdb; congruence.
  - discriminate.
Qed.

(** C2 fails on the code: with only [DATABASE_URL] set, to a complete URL,
    [build_url] returns a descriptor whose [drivername] is the whole URL
    string and whose user name, password, host, port and database are all
    [None].  [URL.create] stores its first argument as the driver name; the
    comment above the call expects SQLAlchemy to parse it. *)
Theorem database_url_descriptor_partial :
  build_url 4300 env_url_only
  = ([msg_database_url],
     Return (URL.mk example_url None None None None None ∅)) ∧
  URL.populated (URL.mk example_url None None None None None ∅) = false.
Proof. split; reflexivity. Qed.

(** ** C3: an incomplete connection string *)

(** C3, as stated, fails twice.  With [AZURE_POSTGRESQL_CONNECTIONSTRING] set
    to the empty string (no key is then present) [build_url] goes on to the
    split variables and returns their descriptor.  With an incomplete string
    and [DBPORT] set to [abc] it raises [ValueError], not the configuration
    error. *)
Lemma azure_incomplete_falls_through :
  (Os.getenv env_azure_empty "DATABASE_URL" = None ∧
   Os.getenv env_azure_empty "AZURE_POSTGRESQL_CONNECTIONSTRING" = Some "" ∧
   parse_azure_conn_str "" !! "host" = None ∧
   build_url 4300 env_azure_empty
   = ([msg_split],
      Return (URL.mk "postgresql+psycopg" (Some "u") (Some "p")
                (Some "db.internal") (Some 5432%Z) (Some "app") ∅))) ∧
  (Os.getenv env_azure_no_password_bad_port "DATABASE_URL" = None ∧
   parse_azure_conn_str "host=h port=5432 dbname=d user=u password="
     !! "password" = Some "" ∧
   build_url 4300 env_azure_no_password_bad_port = ([], Raise ValueError)).
Proof. split_and!; reflexivity. Qed.

(** C3, amended: in every environment in which [DATABASE_URL] is unset or
    empty, [AZURE_POSTGRESQL_CONNECTIONSTRING] is set to a non-empty string
    whose parsed mapping lacks one of [host], [dbname], [user], [password]
    or maps it to the empty string, and the port text converts with
    [int()], [build_url] logs that it uses the connection string and raises
    the [RuntimeError] whose message names that variable; nothing of the
    split-variable branch runs. *)
Theorem azure_incomplete_raises (lim : nat) (env : Os.environ)
    (conn k : string) (port : Z) :
  unset_or_empty (Os.getenv env "DATABASE_URL") →
  Os.getenv env "AZURE_POSTGRESQL_CONNECTIONSTRING" = Some conn →
  conn ≠ "" →
  k ∈ required →
  unset_or_empty (parse_azure_conn_str conn !! k) →
  PyInt.parse lim (port_text env) = Some port →
  build_url lim env = ([msg_azure], Raise (RuntimeError msg_incomplete)) ∧
  PyStr.contains "AZURE_POSTGRESQL_CONNECTIONSTRING" msg_incomplete = true.
Proof.
  intros Hdb Haz Hne Hk Hmiss Hport. split; [| reflexivity].
  rewrite (build_url_path2 lim env port Hport conn).
  - unfold build_from_azure.
    assert (forallb (present (parse_azure_conn_str conn)) required = false)
      as -> by (apply required_incomplete; eauto).
    reflexivity.
  - now apply when_truthy_None.
  - now apply when_truthy_Some.
Qed.

Lemma azure_incomplete_raises_witness :
  parse_azure_conn_str "host=h port=5432 dbname=d user=u password="
    !! "password" = Some "" ∧
  build_url 4300 env_azure_no_password
  = ([msg_azure], Raise (RuntimeError msg_incomplete)).
Proof.
  split; [reflexivity |].
  apply (azure_incomplete_raises 4300 env_azure_no_password
           "host=h port=5432 dbname=d user=u password=" "password" 5432).
  - left. reflexivity.
  - reflexivity.
  - discriminate.
  - unfold required. set_solver.
  - right. reflexivity.
  - reflexivity.
Defined.

(** ** C4: the default [sslmode] of a connection string *)

(** C4, as stated, fails: a connection string with the four required keys
    and no [sslmode] yields no descriptor when its [port] entry is not an
    integer literal, and none either when [DB_PORT] is not one; both runs
    raise [ValueError]. *)
Lemma azure_sslmode_bad_port_raises :
  (Os.getenv env_azure_bad_port_key "DATABASE_URL" = None ∧
   map_to_list
     (parse_azure_conn_str "host=h port=abc dbname=d user=u password=pw")
   = [("user", "u"); ("dbname", "d"); ("host", "h"); ("port", "abc");
      ("password", "pw")] ∧
   build_url 4300 env_azure_bad_port_key = ([msg_azure], Raise ValueError)) ∧
  (Os.getenv env_azure_bad_port_var "DATABASE_URL" = None ∧
   map_to_list (parse_azure_conn_str "host=h dbname=d user=u password=pw")
   = [("user", "u"); ("dbname", "d"); ("host", "h"); ("password", "pw")] ∧
   build_url 4300 env_azure_bad_port_var = ([], Raise ValueError)).
Proof. split_and!; reflexivity. Qed.

(** C4, amended: for every value of [AZURE_POSTGRESQL_CONNECTIONSTRING]
    whose parsed mapping has non-empty [host], [dbname], [user] and
    [password] and no [sslmode] key, with [DATABASE_URL] unset or empty, and
    provided that the port text of the environment and the [port] entry of
    the string (if there is one) convert with [int()], [build_url] returns a
    descriptor whose query parameters are exactly [sslmode=require]; its
    port is the string's [port] entry, or 5432 without one. *)
Theorem azure_sslmode_default (lim : nat) (env : Os.environ)
    (conn h n u p : string) (port cport : Z) :
  unset_or_empty (Os.getenv env "DATABASE_URL") →
  Os.getenv env "AZURE_POSTGRESQL_CONNECTIONSTRING" = Some conn →
  parse_azure_conn_str conn !! "host" = Some h → h ≠ "" →
  parse_azure_conn_str conn !! "dbname" = Some n → n ≠ "" →
  parse_azure_conn_str conn !! "user" = Some u → u ≠ "" →
  parse_azure_conn_str conn !! "password" = Some p → p ≠ "" →
  parse_azure_conn_str conn !! "sslmode" = None →
  PyInt.parse lim (port_text env) = Some port →
  match parse_azure_conn_str conn !! "port" with
  | Some s => PyInt.parse lim s
  | None => Some 5432%Z
  end = Some cport →
  build_url lim env
  = ([msg_azure],
     Return (URL.mk (Os.getenv_default env "DB_DRIVER" "postgresql+psycopg")
               (Some u) (Some p) (Some h) (Some cport) (Some n)
               {["sslmode" := "require"]})).
Proof.
  intros Hdb Haz Hh ? Hn ? Hu ? Hp ? Hssl Hport Hcport.
  assert (conn ≠ "") as Hne by (intros ->; discriminate Hh).
  rewrite (build_url_path2 lim env port Hport conn).
  - destruct (build_from_azure_resolution lim
                (Os.getenv_default env "DB_DRIVER" "postgresql+psycopg") conn)
      as [k Hk Hmiss|h' n' u' p' s Hh' _ Hn' _ Hu' _ Hp' _ Hs Hbad
         |h' n' u' p' port' Hh' _ Hn' _ Hu' _ Hp' _ Hport'].
    + exfalso. unfold required in Hk. rewrite !elem_of_cons, elem_of_nil in Hk.
      destruct Hk as [->|[->|[->|[->|[]]]]], Hmiss; congruence.
    + rewrite Hs in Hcport. congruence.
    + rewrite Hssl. unfold URL.create. simpl. congruence.
  - now apply when_truthy_None.
  - now apply when_truthy_Some.
Qed.

Lemma azure_sslmode_default_witness :
  parse_azure_conn_str "host=h port=5432 dbname=d user=u password=pw"
    !! "sslmode" = None ∧
  build_url 4300 env_azure_example
  = ([msg_azure],
     Return (URL.mk "postgresql+psycopg" (Some "u") (Some "pw") (Some "h")
               (Some 5432%Z) (Some "d") {["sslmode" := "require"]})).
Proof.
  split; [reflexivity |].
  apply (azure_sslmode_default 4300 env_azure_example
           "host=h port=5432 dbname=d user=u password=pw"
           "h" "d" "u" "pw" 5432 5432);
    first [reflexivity | discriminate | (left; reflexivity)].
Defined.

(** ** C5: the query of the split-variable descriptor *)

(** C5, as stated, fails: with [DATABASE_URL] and
    [AZURE_POSTGRESQL_CONNECTIONSTRING] unset, the four split values set and
    non-empty, a host that contains [azure.com], and [DBPORT] set to [abc],
    [build_url] raises [ValueError] when it converts the port and returns no
    descriptor, so there are no query parameters at all. *)
Lemma split_query_bad_port_raises :
  Os.getenv env_split_bad_port "DATABASE_URL" = None ∧
  Os.getenv env_split_bad_port "AZURE_POSTGRESQL_CONNECTIONSTRING" = None ∧
  py_or (Os.getenv env_split_bad_port "DBHOST")
    (Os.getenv env_split_bad_port "DB_HOST")
  = Some "srv.postgres.database.azure.com" ∧
  py_or (Os.getenv env_split_bad_port "DBNAME")
    (Os.getenv env_split_bad_port "DB_NAME") = Some "app" ∧
  py_or (Os.getenv env_split_bad_port "DBUSER")
    (Os.getenv env_split_bad_port "DB_USER") = Some "u" ∧
  py_or (Os.getenv env_split_bad_port "DBPASS")
    (Os.getenv env_split_bad_port "DB_PASSWORD") = Some "p" ∧
  PyStr.contains "azure.com" "srv.postgres.database.azure.com" = true ∧
  build_url 4300 env_split_bad_port = ([], Raise ValueError).
Proof. split_and!; reflexivity. Qed.

(** C5, amended: in every environment in which [DATABASE_URL] and
    [AZURE_POSTGRESQL_CONNECTIONSTRING] are unset or empty, the resolved
    host, name, user and password are non-empty strings, and the port text
    (the first non-empty of [DBPORT] and [DB_PORT], else ["5432"]) converts
    with [int()], [build_url] takes the split-variable branch and returns
    the descriptor of these values, whose query parameters are
    [sslmode=require] when the resolved host contains [azure.com], and
    empty otherwise. *)
Theorem split_query (lim : nat) (env : Os.environ) (h n us p : string)
    (port : Z) :
  unset_or_empty (Os.getenv env "DATABASE_URL") →
  unset_or_empty (Os.getenv env "AZURE_POSTGRESQL_CONNECTIONSTRING") →
  py_or (Os.getenv env "DBHOST") (Os.getenv env "DB_HOST") = Some h →
  h ≠ "" →
  py_or (Os.getenv env "DBNAME") (Os.getenv env "DB_NAME") = Some n →
  n ≠ "" →
  py_or (Os.getenv env "DBUSER") (Os.getenv env "DB_USER") = Some us →
  us ≠ "" →
  py_or (Os.getenv env "DBPASS") (Os.getenv env "DB_PASSWORD") = Some p →
  p ≠ "" →
  PyInt.parse lim (port_text env) = Some port →
  build_url lim env
  = ([msg_split],
     Return (URL.mk (Os.getenv_default env "DB_DRIVER" "postgresql+psycopg")
               (Some us) (Some p) (Some h) (Some port) (Some n)
               (if PyStr.contains "azure.com" h
                then {["sslmode" := "require"]} else ∅))).
Proof.
  intros Hdb Haz Hh Hhne Hn Hnne Hus Husne Hp Hpne Hport.
  rewrite (build_url_path3 lim env port Hport).
  - rewrite Hh, Hn, Hus, Hp, (py_or_str_Some h) by done. reflexivity.
  - now apply when_truthy_None.
  - now apply when_truthy_None.
  - apply all_truthy. exists h, n, us, p. tauto.
Qed.

Lemma split_query_witness :
  (PyStr.contains "azure.com" "srv.postgres.database.azure.com" = true ∧
   build_url 4300 env_split_azure_host
   = ([msg_split],
      Return (URL.mk "postgresql+psycopg" (Some "u") (Some "p")
                (Some "srv.postgres.database.azure.com") (Some 5432%Z)
                (Some "app") {["sslmode" := "require"]}))) ∧
  (PyStr.contains "azure.com" "db.internal" = false ∧
   build_url 4300 env_empty_short_names
   = ([msg_split],
      Return (URL.mk "postgresql+psycopg" (Some "u") (Some "p")
                (Some "db.internal") (Some 6543%Z) (Some "app") ∅))).
Proof.
  split; (split; [reflexivity |]).
  - apply (split_query 4300 env_split_azure_host
             "srv.postgres.database.azure.com" "app" "u" "p" 5432);
      first [reflexivity | discriminate | (left; reflexivity)].
  - apply (split_query 4300 env_empty_short_names
             "db.internal" "app" "u" "p" 6543);
      first [reflexivity | discriminate | (left; reflexivity)].
Defined.

(** The split-variable branch is taken exactly when the two other sources
    are unset or empty, the four resolved values are non-empty and the port
    text converts. *)
Lemma split_branch_taken (lim : nat) (env : Os.environ) :
  logged (build_url lim env) = [msg_split] ↔
  unset_or_empty (Os.getenv env "DATABASE_URL") ∧
  unset_or_empty (Os.getenv env "AZURE_POSTGRESQL_CONNECTIONSTRING") ∧
  forallb truthy
    [py_or (Os.getenv env "DBHOST") (Os.getenv env "DB_HOST");
     py_or (Os.getenv env "DBNAME") (Os.getenv env "DB_NAME");
     py_or (Os.getenv env "DBUSER") (Os.getenv env "DB_USER");
     py_or (Os.getenv env "DBPASS") (Os.getenv env "DB_PASSWORD")] = true ∧
  is_Some (PyInt.parse lim (port_text env)).
Proof.
  split.
  - destruct (build_url_resolution lim env)
      as [| | ? ? ? ? ? ? ? Haz | port h n u p Hport ? ? Hh ? Hn ? Hu ? Hp ? |];
      simpl; intros Hlog; try discriminate.
    + exfalso. destruct Haz; discriminate.
    + split_and!; try done. apply all_truthy. exists h, n, u, p. tauto.
  - intros (Hdb & Haz & Hall & [port Hport]).
    rewrite (build_url_path3 lim env port Hport); try done;
      now apply when_truthy_None.
Qed.

(** ** C6: no source at all *)

(** C6, as stated, fails: with nothing set but [DBPORT], and [DBPORT] not an
    integer literal, none of the three sources is present and [build_url]
    raises [ValueError], not the configuration error. *)
Lemma no_configuration_bad_port_raises :
  Os.getenv env_only_bad_port "DATABASE_URL" = None ∧
  Os.getenv env_only_bad_port "AZURE_POSTGRESQL_CONNECTIONSTRING" = None ∧
  py_or (Os.getenv env_only_bad_port "DBHOST")
    (Os.getenv env_only_bad_port "DB_HOST") = None ∧
  build_url 4300 env_only_bad_port = ([], Raise ValueError).
Proof. split_and!; reflexivity. Qed.

(** C6, amended: in every environment in which [DATABASE_URL] and
    [AZURE_POSTGRESQL_CONNECTIONSTRING] are unset or empty, one of the four
    resolved values host, name, user, password is unset or empty, and the
    port text converts with [int()], [build_url] logs nothing and raises the
    [RuntimeError] whose message lists the three ways to configure:
    [DATABASE_URL], [AZURE_POSTGRESQL_CONNECTIONSTRING], and
    [DB_HOST/DB_NAME/DB_USER/DB_PASSWORD]. *)
Theorem no_configuration_raises (lim : nat) (env : Os.environ) (port : Z) :
  unset_or_empty (Os.getenv env "DATABASE_URL") →
  unset_or_empty (Os.getenv env "AZURE_POSTGRESQL_CONNECTIONSTRING") →
  unset_or_empty (py_or (Os.getenv env "DBHOST") (Os.getenv env "DB_HOST")) ∨
  unset_or_empty (py_or (Os.getenv env "DBNAME") (Os.getenv env "DB_NAME")) ∨
  unset_or_empty (py_or (Os.getenv env "DBUSER") (Os.getenv env "DB_USER")) ∨
  unset_or_empty
    (py_or (Os.getenv env "DBPASS") (Os.getenv env "DB_PASSWORD")) →
  PyInt.parse lim (port_text env) = Some port →
  build_url lim env = ([], Raise (RuntimeError msg_no_config)) ∧
  PyStr.contains "DATABASE_URL" msg_no_config = true ∧
  PyStr.contains "AZURE_POSTGRESQL_CONNECTIONSTRING" msg_no_config = true ∧
  PyStr.contains "DB_HOST/DB_NAME/DB_USER/DB_PASSWORD" msg_no_config = true.
Proof.
  intros Hdb Haz Hmiss Hport. split; [| split_and!; reflexivity].
  apply (build_url_path4 lim env port Hport).
  - now apply when_truthy_None.
  - now apply when_truthy_None.
  - now apply not_all_truthy.
Qed.

Lemma no_configuration_raises_witness :
  py_or (Os.getenv env_host_only "DBNAME") (Os.getenv env_host_only "DB_NAME")
  = None ∧
  build_url 4300 env_host_only = ([], Raise (RuntimeError msg_no_config)).
Proof.
  split; [reflexivity |].
  apply (no_configuration_raises 4300 env_host_only 5432).
  - right. reflexivity.
  - left. reflexivity.
  - right. left. left. reflexivity.
  - reflexivity.
Defined.

(** ** C7: the example of the specification *)

(** C7: in the environment that sets only [DB_HOST=db.internal],
    [DB_NAME=app], [DB_USER=u] and [DB_PASSWORD=p], [build_url] returns the
    descriptor with driver [postgresql+psycopg], user [u], password [p],
    host [db.internal], port 5432, database [app] and no query parameter;
    the driver and the port are the defaults. *)
Theorem split_example (lim : nat) :
  build_url lim env_split_example
  = ([msg_split],
     Return (URL.mk "postgresql+psycopg" (Some "u") (Some "p")
               (Some "db.internal") (Some 5432%Z) (Some "app") ∅)) ∧
  Os.getenv env_split_example "DB_DRIVER" = None ∧
  Os.getenv env_split_example "DBPORT" = None ∧
  Os.getenv env_split_example "DB_PORT" = None.
Proof.
  split; [| split_and!; reflexivity].
  rewrite (build_url_path3 lim env_split_example 5432).
  - reflexivity.
  - apply PyIntFacts.parse_default_port.
  - reflexivity.
  - reflexivity.
  - reflexivity.
Qed.

(** ** C8: short names first *)

Lemma py_or_first_form (env : Os.environ) (short prefixed : string) :
  first_form env short prefixed
    (py_or (Os.getenv env short) (Os.getenv env prefixed)).
Proof.
  split.
  - intros s Hs Hne. now apply py_or_left.
  - intros Hshort s Hs _. now rewrite py_or_right.
Qed.

(** A chosen value is what the expression
    [os.getenv(short) or os.getenv(prefixed)] evaluates to. *)
Lemma chosen_py_or (env : Os.environ) (short prefixed value : string) :
  chosen env short prefixed value →
  py_or (Os.getenv env short) (Os.getenv env prefixed) = Some value ∧
  value ≠ "".
Proof.
  intros [Hne [Hshort|[Hshort Hpref]]]; split; try done.
  - now apply py_or_left.
  - now rewrite py_or_right.
Qed.

(** C8: for each of host, database name, user, password and port, either of
    two names yields the value, the short one first.  In every environment
    without [DATABASE_URL] and connection string in which each of the four
    fields has a value [chosen] from its pair of names (the non-empty value
    of [DBHOST], [DBNAME], [DBUSER], [DBPASS], whatever the prefixed name
    holds; or, when the short name is unset or empty, the non-empty value of
    [DB_HOST], [DB_NAME], [DB_USER], [DB_PASSWORD]), and the port text [s]
    is chosen in the same way from [DBPORT] and [DB_PORT] (or is ["5432"]
    when both are unset or empty), [build_url] converts [s] and returns the
    descriptor made of exactly these values; when [s] does not convert it
    raises [ValueError]. *)
Theorem short_form_first (lim : nat) (env : Os.environ)
    (h n us p s : string) :
  unset_or_empty (Os.getenv env "DATABASE_URL") →
  unset_or_empty (Os.getenv env "AZURE_POSTGRESQL_CONNECTIONSTRING") →
  chosen env "DBHOST" "DB_HOST" h →
  chosen env "DBNAME" "DB_NAME" n →
  chosen env "DBUSER" "DB_USER" us →
  chosen env "DBPASS" "DB_PASSWORD" p →
  chosen env "DBPORT" "DB_PORT" s ∨
  (unset_or_empty (Os.getenv env "DBPORT") ∧
   unset_or_empty (Os.getenv env "DB_PORT") ∧ s = "5432") →
  build_url lim env
  = match PyInt.parse lim s with
    | Some port =>
        ([msg_split],
         Return (URL.mk (Os.getenv_default env "DB_DRIVER" "postgresql+psycopg")
                   (Some us) (Some p) (Some h) (Some port) (Some n)
                   (if PyStr.contains "azure.com" h
                    then {["sslmode" := "require"]} else ∅)))
    | None => ([], Raise ValueError)
    end.
Proof.
  intros Hdb Haz Hh Hn Hus Hp Hs.
  apply chosen_py_or in Hh as [Hh Hhne], Hn as [Hn Hnne],
      Hus as [Hus Husne], Hp as [Hp Hpne].
  assert (port_text env = s) as Hpt.
  { unfold port_text. destruct Hs as [Hs|(Hshort & Hpref & ->)].
    - apply chosen_py_or in Hs as [-> Hsne]. now apply py_or_str_Some.
    - rewrite (py_or_right _ _ Hshort). now apply py_or_str_default. }
  destruct (PyInt.parse lim s) as [port|] eqn:Hport.
  - rewrite <- Hpt in Hport. rewrite (build_url_path3 lim env port Hport).
    + rewrite Hh, Hn, Hus, Hp, (py_or_str_Some h) by done. reflexivity.
    + now apply when_truthy_None.
    + now apply when_truthy_None.
    + apply all_truthy. exists h, n, us, p. tauto.
  - apply build_url_port_error. now rewrite Hpt.
Qed.

Lemma short_form_first_witness :
  (Os.getenv env_both_forms "DBHOST" = Some "short.host" ∧
   Os.getenv env_both_forms "DB_HOST" = Some "prefixed.host") ∧
  (Os.getenv env_both_forms "DBNAME" = Some "" ∧
   Os.getenv env_both_forms "DB_NAME" = Some "prefixed_name") ∧
  (Os.getenv env_both_forms "DBUSER" = None ∧
   Os.getenv env_both_forms "DB_USER" = Some "prefixed_user") ∧
  (Os.getenv env_both_forms "DBPORT" = Some "6000" ∧
   Os.getenv env_both_forms "DB_PORT" = Some "7000") ∧
  build_url 4300 env_both_forms
  = ([msg_split],
     Return (URL.mk "postgresql+psycopg" (Some "prefixed_user")
               (Some "short_pw") (Some "short.host") (Some 6000%Z)
               (Some "prefixed_name") ∅)).
Proof.
  do 4 (split; [split; reflexivity |]).
  apply (short_form_first 4300 env_both_forms
           "short.host" "prefixed_name" "prefixed_user" "short_pw" "6000").
  - left. reflexivity.
  - left. reflexivity.
  - split; [discriminate |]. left. reflexivity.
  - split; [discriminate |]. right. split; [right |]; reflexivity.
  - split; [discriminate |]. right. split; [left |]; reflexivity.
  - split; [discriminate |]. left. reflexivity.
  - left. split; [discriminate |]. left. reflexivity.
Defined.

(** ** C9: [parse_azure_conn_str] *)

(** C9: for every input string, the mapping returned by
    [parse_azure_conn_str] holds [value] under [key] exactly when, among the
    whitespace-separated tokens, the last one whose text before its first
    ['='] is [key] has [value] after that ['=']: tokens without ['='] add
    nothing, the cut is at the first ['='] only (so [value] may contain
    ['=']), and a later token for the same key replaces an earlier one. *)
Theorem parse_azure_conn_str_lookup (conn_str key value : string) :
  parse_azure_conn_str conn_str !! key = Some value ↔
  ∃ before after : list string,
    PyStr.split conn_str = before ++ (key ++ "=" ++ value)%string :: after ∧
    PyStr.lacks "=" key = true ∧
    ∀ t v', t ∈ after → t ≠ (key ++ "=" ++ v')%string.
Proof.
  unfold parse_azure_conn_str. apply ParseFacts.fold_tokens_lookup.
  eapply Forall_impl; [apply PyStrFacts.split_tokens |].
  intros t [_ Ht]. exact Ht.
Qed.

(** Three runs of [parse_azure_conn_str]: a token without ['='] between two
    pairs, a value that contains ['='], and a key given twice. *)
Example parse_azure_conn_str_examples :
  map_to_list (parse_azure_conn_str "host=h junk user=u")
  = [("user", "u"); ("host", "h")] ∧
  map_to_list (parse_azure_conn_str "options=-c=x") = [("options", "-c=x")] ∧
  map_to_list (parse_azure_conn_str " host=a  host=b ") = [("host", "b")].
Proof. split_and!; reflexivity. Qed.

(** ** C10: the port is converted before any branch *)

(** C10, as stated, fails: with [DBPORT=8080] and [DB_PORT=abc], the variable
    [DB_PORT] is set to a non-empty string that is no integer literal, yet
    [int()] is handed [8080], no [ValueError] is raised and [build_url]
    returns the descriptor of [DATABASE_URL]. *)
Lemma prefixed_port_not_converted :
  Os.getenv env_url_two_ports "DB_PORT" = Some "abc" ∧
  PyInt.parse 4300 "abc" = None ∧
  port_text env_url_two_ports = "8080" ∧
  build_url 4300 env_url_two_ports
  = ([msg_database_url], Return (URL.create_positional example_url)).
Proof. split_and!; reflexivity. Qed.

(** C10, amended: the port text is converted before any branch is chosen,
    so in every environment in which the first non-empty value of [DBPORT]
    and [DB_PORT], in this order, is not an integer literal, [build_url]
    raises [ValueError], logs nothing and returns no descriptor, whatever
    [DATABASE_URL], [AZURE_POSTGRESQL_CONNECTIONSTRING] and the other
    variables hold. *)
Theorem bad_port_raises (lim : nat) (env : Os.environ) (s : string) :
  py_or (Os.getenv env "DBPORT") (Os.getenv env "DB_PORT") = Some s →
  s ≠ "" →
  ¬ Literal.literal s →
  build_url lim env = ([], Raise ValueError).
Proof.
  intros Hsel Hne Hbad. apply build_url_port_error.
  unfold port_text. rewrite Hsel, py_or_str_Some by done.
  now apply LiteralFacts.not_literal_refused.
Qed.

Lemma bad_port_raises_witness :
  Os.getenv env_url_bad_port "DATABASE_URL" = Some example_url ∧
  build_url 4300 env_url_bad_port = ([], Raise ValueError).
Proof.
  split; [reflexivity |].
  apply (bad_port_raises 4300 env_url_bad_port "abc").
  - reflexivity.
  - discriminate.
  - intros [n Hn]%LiteralFacts.literal_parse. discriminate Hn.
Defined.

(** * Further properties of [parse_azure_conn_str] *)

Module SplitFacts.
Import PyStr PyStrFacts.
Local Open Scope string_scope.

(** A whitespace character ends the token being read and starts afresh. *)
Lemma split_from_app_space (tok a b : string) (c : ascii) :
  PyChar.isspace c = true →
  split_from tok (a ++ String c b) = (split_from tok a ++ split b)%list.
Proof.
  intros Hc. revert tok. induction a as [|x a IH]; intros tok.
  - rewrite app_nil_l. simpl. rewrite Hc. unfold split.
    now destruct (truthy tok).
  - rewrite app_cons. simpl. destruct (PyChar.isspace x).
    + destruct (truthy tok); now rewrite IH.
    + apply IH.
Qed.

(** Characters that are no whitespace go to the token being read. *)
Lemma split_from_nospace (tok t s : string) :
  nospace t = true → split_from tok (t ++ s) = split_from (tok ++ t) s.
Proof.
  revert tok. induction t as [|x t IH]; intros tok Ht.
  - now rewrite app_nil_l, app_nil_r.
  - simpl in Ht. apply andb_true_iff in Ht as [Hx Ht].
    apply negb_true_iff in Hx. rewrite app_cons. simpl. rewrite Hx.
    rewrite (IH _ Ht), app_assoc. reflexivity.
Qed.

(** [split] undoes [join] on tokens that are non-empty and free of
    whitespace. *)
Lemma split_join (tokens : list string) :
  Forall (λ t, truthy t = true ∧ nospace t = true) tokens →
  split (ConnStr.join tokens) = tokens.
Proof.
  induction 1 as [|t ts [Ht Hns] Hts IH]; [reflexivity |].
  destruct ts as [|t2 ts].
  - simpl. unfold split. rewrite <- (app_nil_r t) at 1.
    rewrite (split_from_nospace "" t "" Hns), app_nil_l. simpl. now rewrite Ht.
  - change (ConnStr.join (t :: t2 :: ts))
      with (t ++ String " " (ConnStr.join (t2 :: ts))).
    unfold split. rewrite (split_from_nospace "" t _ Hns), app_nil_l.
    simpl. rewrite Ht. f_equal. exact IH.
Qed.

End SplitFacts.

Module ParseMore.
Import PyStr PyStrFacts ParseFacts.
Local Open Scope string_scope.

Lemma parse_token_union (m : gmap string string) (t : string) :
  parse_token m t = parse_token ∅ t ∪ m.
Proof.
  unfold parse_token. destruct (contains "=" t).
  - destruct (split_once "=" t) as [[k v]|].
    + now rewrite insert_union_singleton_l, insert_empty.
    + now rewrite (left_id ∅ (∪)).
  - now rewrite (left_id ∅ (∪)).
Qed.

(** The loop started on a dictionary [m] adds its own entries over [m]. *)
Lemma fold_tokens_union (ts : list string) (m : gmap string string) :
  fold_left parse_token ts m = fold_left parse_token ts ∅ ∪ m.
Proof.
  revert m. induction ts as [|t ts IH]; intros m; simpl.
  - now rewrite (left_id ∅ (∪)).
  - rewrite (IH (parse_token m t)), (IH (parse_token ∅ t)).
    rewrite (parse_token_union m t). now rewrite (assoc_L (∪)).
Qed.

Lemma fold_tokens_pairs (pairs : list (string * string))
    (m : gmap string string) :
  Forall ConnStr.plain pairs →
  fold_left parse_token (map ConnStr.token pairs) m
  = list_to_map (rev pairs) ∪ m.
Proof.
  intros Hp. revert m. induction Hp as [|[k v] l (Hk & He & Hv) _ IH];
    intros m; simpl.
  - now rewrite (left_id ∅ (∪)).
  - rewrite IH. unfold ConnStr.token. simpl in *.
    rewrite parse_token_bind by done.
    rewrite list_to_map_app. simpl.
    rewrite <- (assoc_L (∪)). f_equal.
    now rewrite insert_union_singleton_l.
Qed.

Lemma token_plain (kv : string * string) :
  ConnStr.plain kv →
  truthy (ConnStr.token kv) = true ∧ nospace (ConnStr.token kv) = true.
Proof.
  destruct kv as [k v]. intros (Hk & _ & Hv). unfold ConnStr.token. simpl in *.
  split.
  - destruct k; reflexivity.
  - rewrite nospace_app, Hk. simpl. exact Hv.
Qed.

End ParseMore.

(** X1: a connection string in two parts, with a whitespace character
    between them, parses to the entries of the second part laid over those
    of the first: what comes later in the string overrides. *)
Theorem parse_azure_conn_str_app (a b : string) (c : ascii) :
  PyChar.isspace c = true →
  parse_azure_conn_str (a ++ String c b)
  = parse_azure_conn_str b ∪ parse_azure_conn_str a.
Proof.
  intros Hc. unfold parse_azure_conn_str, PyStr.split.
  rewrite (SplitFacts.split_from_app_space _ _ _ _ Hc), fold_left_app.
  apply ParseMore.fold_tokens_union.
Qed.

Lemma parse_azure_conn_str_app_witness :
  map_to_list (parse_azure_conn_str "host=h port=1")
  = [("host", "h"); ("port", "1")] ∧
  map_to_list (parse_azure_conn_str "port=2 user=u")
  = [("user", "u"); ("port", "2")] ∧
  parse_azure_conn_str ("host=h port=1" ++ String " " "port=2 user=u")
  = parse_azure_conn_str "port=2 user=u" ∪ parse_azure_conn_str "host=h port=1".
Proof.
  split_and!; [reflexivity | reflexivity |].
  apply (parse_azure_conn_str_app "host=h port=1" "port=2 user=u" " ").
  reflexivity.
Defined.

(** X2: writing a list of pairs as [key=value] tokens joined by single
    spaces and parsing the result gives the pairs back as a mapping, a
    later pair winning over an earlier one with the same key; this holds
    for all pairs whose keys and values contain no whitespace and whose
    keys contain no ['=']. *)
Theorem parse_azure_conn_str_of_pairs (pairs : list (string * string)) :
  Forall ConnStr.plain pairs →
  parse_azure_conn_str (ConnStr.of_pairs pairs) = list_to_map (rev pairs).
Proof.
  intros Hp. unfold parse_azure_conn_str, ConnStr.of_pairs.
  rewrite SplitFacts.split_join.
  - rewrite (ParseMore.fold_tokens_pairs _ _ Hp). apply (right_id ∅ (∪)).
  - apply Forall_map. eapply Forall_impl; [exact Hp |].
    apply ParseMore.token_plain.
Qed.

Lemma parse_azure_conn_str_of_pairs_witness :
  ConnStr.of_pairs [("host", "h"); ("options", "-c=x"); ("host", "g")]
  = "host=h options=-c=x host=g" ∧
  parse_azure_conn_str
    (ConnStr.of_pairs [("host", "h"); ("options", "-c=x"); ("host", "g")])
  = list_to_map (rev [("host", "h"); ("options", "-c=x"); ("host", "g")]).
Proof.
  split; [reflexivity |].
  apply (parse_azure_conn_str_of_pairs
           [("host", "h"); ("options", "-c=x"); ("host", "g")]).
  repeat constructor.
Defined.

(** X3: in the mapping that [parse_azure_conn_str] returns, no key and no
    value contains a whitespace character, and no key contains ['=']: a
    value with a space in it cannot be passed. *)
Theorem parse_azure_conn_str_entries (conn_str key value : string) :
  parse_azure_conn_str conn_str !! key = Some value →
  PyStr.nospace key = true ∧ PyStr.lacks "=" key = true ∧
  PyStr.nospace value = true.
Proof.
  unfold parse_azure_conn_str. intros H.
  pose proof (PyStrFacts.split_tokens conn_str) as Hts.
  apply ParseFacts.fold_tokens_lookup in H
    as (before & after & Hsplit & Hkey & _).
  - rewrite Hsplit in Hts. apply Forall_app in Hts as [_ Hts].
    apply Forall_inv in Hts as [_ Hns].
    rewrite PyStrFacts.nospace_app in Hns. simpl in Hns.
    apply andb_true_iff in Hns as [Hk Hv]. auto.
  - eapply Forall_impl; [exact Hts |]. now intros t [_ Ht].
Qed.

Lemma parse_azure_conn_str_entries_witness :
  parse_azure_conn_str "user=u password=two words" !! "password" = Some "two" ∧
  PyStr.nospace "password" = true ∧ PyStr.lacks "=" "password" = true ∧
  PyStr.nospace "two" = true.
Proof.
  split; [reflexivity |].
  apply (parse_azure_conn_str_entries "user=u password=two words").
  reflexivity.
Defined.

(** * Further properties of [build_url] *)

Lemma not_unset_or_empty (v : option string) :
  ¬ unset_or_empty v ↔ ∃ s, v = Some s ∧ s ≠ "".
Proof.
  rewrite <- truthy_true_iff, <- truthy_false_iff. now destruct (truthy v).
Qed.

Lemma when_truthy_py_or (a b : option string) :
  when_truthy (py_or a b)
  = match when_truthy a with Some s => Some s | None => when_truthy b end.
Proof. unfold py_or. now destruct a as [[|c s]|]. Qed.

Lemma py_or_str_when_truthy (v : option string) (dflt : string) :
  py_or_str v dflt = default dflt (when_truthy v).
Proof. now destruct v as [[|c s]|]. Qed.

Lemma truthy_when_truthy (v : option string) :
  truthy v = match when_truthy v with Some _ => true | None => false end.
Proof. now destruct v as [[|c s]|]. Qed.

Lemma when_truthy_id (v : option string) :
  truthy v = true → when_truthy v = v.
Proof. now destruct v as [[|c s]|]. Qed.

Lemma same_settings_py_or (env env' : Os.environ) (a b : string) :
  same_settings env env' →
  when_truthy (py_or (Os.getenv env' a) (Os.getenv env' b))
  = when_truthy (py_or (Os.getenv env a) (Os.getenv env b)).
Proof. intros [H _]. now rewrite !when_truthy_py_or, !H. Qed.

Lemma same_settings_truthy (env env' : Os.environ) (a b : string) :
  same_settings env env' →
  truthy (py_or (Os.getenv env' a) (Os.getenv env' b))
  = truthy (py_or (Os.getenv env a) (Os.getenv env b)).
Proof.
  intros H. now rewrite !truthy_when_truthy, (same_settings_py_or _ _ _ _ H).
Qed.

Lemma same_settings_value (env env' : Os.environ) (a b : string) :
  same_settings env env' →
  truthy (py_or (Os.getenv env a) (Os.getenv env b)) = true →
  py_or (Os.getenv env' a) (Os.getenv env' b)
  = py_or (Os.getenv env a) (Os.getenv env b).
Proof.
  intros H Ht. rewrite <- (when_truthy_id _ Ht).
  rewrite <- (same_settings_py_or _ _ _ _ H). apply eq_sym, when_truthy_id.
  now rewrite (same_settings_truthy _ _ _ _ H).
Qed.

Lemma same_settings_build_url (lim : nat) (env env' : Os.environ) :
  same_settings env env' → build_url lim env' = build_url lim env.
Proof.
  intros Hs. pose proof Hs as [Hw Hdr].
  assert (port_text env' = port_text env) as Hpt.
  { unfold port_text.
    now rewrite !py_or_str_when_truthy, (same_settings_py_or _ _ _ _ Hs). }
  assert (Os.getenv_default env' "DB_DRIVER" "postgresql+psycopg"
          = Os.getenv_default env "DB_DRIVER" "postgresql+psycopg") as Hd.
  { unfold Os.getenv_default. unfold Os.getenv in Hdr. now rewrite Hdr. }
  destruct (PyInt.parse lim (port_text env)) as [port|] eqn:Hport.
  2: { rewrite !build_url_port_error; congruence. }
  assert (PyInt.parse lim (port_text env') = Some port) as Hport'
    by congruence.
  destruct (when_truthy (Os.getenv env "DATABASE_URL")) as [url|] eqn:Hdb.
  { rewrite (build_url_path1 _ _ _ Hport _ Hdb).
    apply (build_url_path1 _ _ _ Hport'). now rewrite Hw. }
  destruct (when_truthy (Os.getenv env "AZURE_POSTGRESQL_CONNECTIONSTRING"))
    as [conn|] eqn:Haz.
  { rewrite (build_url_path2 _ _ _ Hport _ Hdb Haz), <- Hd.
    apply (build_url_path2 _ _ _ Hport'); now rewrite Hw. }
  destruct (forallb truthy
              [py_or (Os.getenv env "DBHOST") (Os.getenv env "DB_HOST");
               py_or (Os.getenv env "DBNAME") (Os.getenv env "DB_NAME");
               py_or (Os.getenv env "DBUSER") (Os.getenv env "DB_USER");
               py_or (Os.getenv env "DBPASS") (Os.getenv env "DB_PASSWORD")])
    eqn:Hall.
  - rewrite (build_url_path3 _ _ _ Hport Hdb Haz Hall).
    rewrite (build_url_path3 _ _ _ Hport').
    + simpl in Hall. rewrite !andb_true_iff in Hall.
      destruct Hall as (Hh & Hn & Hu & Hp & _).
      now rewrite Hd, !(same_settings_value _ _ _ _ Hs) by done.
    + now rewrite Hw.
    + now rewrite Hw.
    + simpl. now rewrite !(same_settings_truthy _ _ _ _ Hs).
  - rewrite (build_url_path4 _ _ _ Hport Hdb Haz Hall).
    apply (build_url_path4 _ _ _ Hport').
    + now rewrite Hw.
    + now rewrite Hw.
    + simpl. now rewrite !(same_settings_truthy _ _ _ _ Hs).
Qed.

(** X4: a variable set to the empty string counts as unset: removing it
    from the environment changes neither what [build_url] logs nor how it
    ends.  [DB_DRIVER] is the exception: its empty value is used. *)
Theorem empty_variable_is_unset (lim : nat) (env : Os.environ)
    (name : string) :
  Os.getenv env name = Some "" →
  name ≠ "DB_DRIVER" →
  build_url lim (delete name env) = build_url lim env.
Proof.
  intros Hname Hne. apply same_settings_build_url. split.
  - intros a. unfold Os.getenv in *. destruct (decide (name = a)) as [<-|Hna].
    + now rewrite lookup_delete_eq, Hname.
    + now rewrite lookup_delete_ne.
  - unfold Os.getenv. now rewrite lookup_delete_ne.
Qed.

Lemma empty_variable_is_unset_witness :
  Os.getenv env_empty_short_names "DBHOST" = Some "" ∧
  build_url 4300 (delete "DBHOST" env_empty_short_names)
  = build_url 4300 env_empty_short_names.
Proof.
  split; [reflexivity |].
  apply (empty_variable_is_unset 4300 env_empty_short_names "DBHOST").
  - reflexivity.
  - discriminate.
Defined.

(** X5: [build_url] never raises [KeyError]: the subscripts [d["user"]],
    [d["password"]], [d["host"]] and [d["dbname"]] are reached only after
    the test on the required keys.  What it raises is [ValueError] or one of
    its two [RuntimeError]s. *)
Theorem build_url_exceptions (lim : nat) (env : Os.environ) (e : exn) :
  result (build_url lim env) = Raise e →
  e = ValueError ∨ e = RuntimeError msg_incomplete ∨
  e = RuntimeError msg_no_config.
Proof.
  destruct (build_url_resolution lim env)
    as [| | ? ? ? _ _ _ _ Haz | |]; simpl; intros He;
    try (injection He as <-); try discriminate; auto.
  destruct Haz; simpl in He; try (injection He as <-); try discriminate; auto.
Qed.

Lemma build_url_exceptions_witness :
  result (build_url 4300 env_azure_no_password)
  = Raise (RuntimeError msg_incomplete) ∧
  (RuntimeError msg_incomplete = ValueError ∨
   RuntimeError msg_incomplete = RuntimeError msg_incomplete ∨
   RuntimeError msg_incomplete = RuntimeError msg_no_config).
Proof.
  split; [reflexivity |].
  apply (build_url_exceptions 4300 env_azure_no_password). reflexivity.
Defined.

(** X6: a descriptor is never returned without exactly one log line, and
    the line names the source that was used: [DATABASE_URL] when that is
    non-empty; the connection string when [DATABASE_URL] is unset or empty
    and the string is non-empty; the split variables when both are unset or
    empty. *)
Theorem returned_descriptor_is_logged (lim : nat) (env : Os.environ)
    (u : URL.t) :
  result (build_url lim env) = Return u →
  (logged (build_url lim env) = [msg_database_url] ∧
   ¬ unset_or_empty (Os.getenv env "DATABASE_URL")) ∨
  (logged (build_url lim env) = [msg_azure] ∧
   unset_or_empty (Os.getenv env "DATABASE_URL") ∧
   ¬ unset_or_empty (Os.getenv env "AZURE_POSTGRESQL_CONNECTIONSTRING")) ∨
  (logged (build_url lim env) = [msg_split] ∧
   unset_or_empty (Os.getenv env "DATABASE_URL") ∧
   unset_or_empty (Os.getenv env "AZURE_POSTGRESQL_CONNECTIONSTRING")).
Proof.
  destruct (build_url_resolution lim env)
    as [| ? url _ Hurl Hne | ? conn ? _ Hdb Hconn Hne Haz | |];
    simpl; intros Hu; try discriminate.
  - left. split; [reflexivity |]. apply not_unset_or_empty. eauto.
  - right. left. split_and!; [| done |].
    + destruct Haz; simpl in *; first [discriminate | reflexivity].
    + apply not_unset_or_empty. eauto.
  - right. right. auto.
Qed.

Lemma returned_descriptor_is_logged_witness :
  (logged (build_url 4300 env_azure_full) = [msg_database_url] ∧
   ¬ unset_or_empty (Os.getenv env_azure_full "DATABASE_URL")) ∨
  (logged (build_url 4300 env_azure_full) = [msg_azure] ∧
   unset_or_empty (Os.getenv env_azure_full "DATABASE_URL") ∧
   ¬ unset_or_empty
       (Os.getenv env_azure_full "AZURE_POSTGRESQL_CONNECTIONSTRING")) ∨
  (logged (build_url 4300 env_azure_full) = [msg_split] ∧
   unset_or_empty (Os.getenv env_azure_full "DATABASE_URL") ∧
   unset_or_empty
     (Os.getenv env_azure_full "AZURE_POSTGRESQL_CONNECTIONSTRING")).
Proof.
  apply (returned_descriptor_is_logged 4300 env_azure_full
           (URL.mk "postgresql+psycopg2" (Some "u") (Some "pw") (Some "h")
              (Some 6000%Z) (Some "d") {["sslmode" := "disable"]})).
  reflexivity.
Defined.

(** X7: once the connection string is used, the split variables play no
    part: two environments with the same non-empty connection string, no
    [DATABASE_URL], the same [DB_DRIVER], and port texts that convert, end
    [build_url] in the same way, whatever the host, name, user, password
    and port variables hold. *)
Theorem azure_ignores_split_variables (lim : nat) (env env' : Os.environ)
    (conn : string) (port port' : Z) :
  unset_or_empty (Os.getenv env "DATABASE_URL") →
  unset_or_empty (Os.getenv env' "DATABASE_URL") →
  Os.getenv env "AZURE_POSTGRESQL_CONNECTIONSTRING" = Some conn →
  Os.getenv env' "AZURE_POSTGRESQL_CONNECTIONSTRING" = Some conn →
  conn ≠ "" →
  Os.getenv env "DB_DRIVER" = Os.getenv env' "DB_DRIVER" →
  PyInt.parse lim (port_text env) = Some port →
  PyInt.parse lim (port_text env') = Some port' →
  build_url lim env = build_url lim env'.
Proof.
  intros Hdb Hdb' Haz Haz' Hne Hdr Hport Hport'.
  rewrite (build_url_path2 lim env port Hport conn),
    (build_url_path2 lim env' port' Hport' conn).
  - unfold Os.getenv_default. unfold Os.getenv in Hdr. now rewrite Hdr.
  - now apply when_truthy_None.
  - now apply when_truthy_Some.
  - now apply when_truthy_None.
  - now apply when_truthy_Some.
Qed.

Lemma azure_ignores_split_variables_witness :
  port_text env_azure_full = "7000" ∧
  port_text env_azure_full_other = "1" ∧
  build_url 4300 env_azure_full = build_url 4300 env_azure_full_other.
Proof.
  split_and!; [reflexivity | reflexivity |].
  apply (azure_ignores_split_variables 4300 env_azure_full
           env_azure_full_other
           "host=h port=6000 dbname=d user=u password=pw sslmode=disable"
           7000 1);
    first [reflexivity | discriminate | (left; reflexivity)
          | (right; reflexivity)].
Defined.

(** X8: every field of a descriptor built from the connection string comes
    from the string: user, password, host and database are its [user],
    [password], [host] and [dbname] entries; the port is its [port] entry
    converted, or 5432 without one, and never the value of [DBPORT] or
    [DB_PORT]; the only query parameter is [sslmode], with the string's own
    [sslmode] entry passed through unchanged (the empty string included),
    or [require] without one. *)
Theorem azure_descriptor_fields (lim : nat) (env : Os.environ)
    (conn : string) (u : URL.t) :
  unset_or_empty (Os.getenv env "DATABASE_URL") →
  Os.getenv env "AZURE_POSTGRESQL_CONNECTIONSTRING" = Some conn →
  conn ≠ "" →
  result (build_url lim env) = Return u →
  URL.username u = parse_azure_conn_str conn !! "user" ∧
  URL.password u = parse_azure_conn_str conn !! "password" ∧
  URL.host u = parse_azure_conn_str conn !! "host" ∧
  URL.database u = parse_azure_conn_str conn !! "dbname" ∧
  URL.port u = match parse_azure_conn_str conn !! "port" with
               | Some s => PyInt.parse lim s
               | None => Some 5432%Z
               end ∧
  URL.query u
  = {["sslmode" := default "require" (parse_azure_conn_str conn !! "sslmode")]}.
Proof.
  intros Hdb Haz Hne.
  destruct (build_url_resolution lim env)
    as [| ? url _ Hurl Hurlne | ? conn' ? _ _ Hconn _ Hres
       | ? ? ? ? ? _ _ Haz' |];
    simpl; intros Hu; try discriminate.
  - destruct Hdb; congruence.
  - assert (conn' = conn) as -> by congruence.
    destruct Hres as [| |h n us p cport Hh _ Hn _ Hu' _ Hp _ Hcport];
      simpl in Hu; try discriminate.
    injection Hu as <-. simpl. now rewrite Hh, Hn, Hu', Hp, Hcport.
  - destruct Haz'; congruence.
Qed.

Lemma azure_descriptor_fields_witness :
  port_text env_azure_full = "7000" ∧
  let u := URL.mk "postgresql+psycopg2" (Some "u") (Some "pw") (Some "h")
             (Some 6000%Z) (Some "d") {["sslmode" := "disable"]} in
  let conn :=
    "host=h port=6000 dbname=d user=u password=pw sslmode=disable" in
  result (build_url 4300 env_azure_full) = Return u ∧
  URL.username u = parse_azure_conn_str conn !! "user" ∧
  URL.password u = parse_azure_conn_str conn !! "password" ∧
  URL.host u = parse_azure_conn_str conn !! "host" ∧
  URL.database u = parse_azure_conn_str conn !! "dbname" ∧
  URL.port u = match parse_azure_conn_str conn !! "port" with
               | Some s => PyInt.parse 4300 s
               | None => Some 5432%Z
               end ∧
  URL.query u
  = {["sslmode" := default "require" (parse_azure_conn_str conn !! "sslmode")]}.
Proof.
  split; [reflexivity |]. split; [reflexivity |].
  apply (azure_descriptor_fields 4300 env_azure_full);
    first [reflexivity | discriminate | (left; reflexivity)].
Defined.

Lemma build_from_azure_ext (lim : nat) (driver conn conn' : string) :
  (∀ k, k ∈ azure_keys →
        parse_azure_conn_str conn' !! k = parse_azure_conn_str conn !! k) →
  build_from_azure lim driver conn' = build_from_azure lim driver conn.
Proof.
  intros H. unfold build_from_azure, getitem, required, present. simpl.
  rewrite !H by (unfold azure_keys; set_solver). reflexivity.
Qed.

(** X9: entries of the connection string other than [host], [dbname],
    [user], [password], [port] and [sslmode] are dropped without a trace:
    replacing the string by another non-empty one with the same six entries
    changes nothing of what [build_url] logs, returns or raises. *)
Theorem azure_other_entries_ignored (lim : nat) (env : Os.environ)
    (conn conn' : string) :
  Os.getenv env "AZURE_POSTGRESQL_CONNECTIONSTRING" = Some conn →
  conn ≠ "" → conn' ≠ "" →
  (∀ k, k ∈ azure_keys →
        parse_azure_conn_str conn' !! k = parse_azure_conn_str conn !! k) →
  build_url lim (<["AZURE_POSTGRESQL_CONNECTIONSTRING" := conn']> env)
  = build_url lim env.
Proof.
  intros Haz Hne Hne' Hkeys.
  set (env' := <["AZURE_POSTGRESQL_CONNECTIONSTRING" := conn']> env).
  assert (∀ name, name ≠ "AZURE_POSTGRESQL_CONNECTIONSTRING" →
                  Os.getenv env' name = Os.getenv env name) as Hother.
  { intros name Hname. unfold env', Os.getenv. now rewrite lookup_insert_ne. }
  assert (Os.getenv env' "AZURE_POSTGRESQL_CONNECTIONSTRING" = Some conn')
    as Haz' by (unfold env', Os.getenv; now rewrite lookup_insert_eq).
  assert (port_text env' = port_text env) as Hpt
    by (unfold port_text; now rewrite !Hother by discriminate).
  assert (Os.getenv_default env' "DB_DRIVER" "postgresql+psycopg"
          = Os.getenv_default env "DB_DRIVER" "postgresql+psycopg") as Hd.
  { pose proof (Hother "DB_DRIVER") as Hdr. unfold Os.getenv in Hdr.
    unfold Os.getenv_default. now rewrite Hdr by discriminate. }
  destruct (PyInt.parse lim (port_text env)) as [port|] eqn:Hport.
  2: { rewrite !build_url_port_error; congruence. }
  assert (PyInt.parse lim (port_text env') = Some port) as Hport'
    by congruence.
  destruct (when_truthy (Os.getenv env "DATABASE_URL")) as [url|] eqn:Hdb.
  - rewrite (build_url_path1 _ _ _ Hport _ Hdb).
    apply (build_url_path1 _ _ _ Hport'). now rewrite Hother by discriminate.
  - rewrite (build_url_path2 lim env port Hport conn Hdb),
      (build_url_path2 lim env' port Hport' conn').
    + rewrite Hd. now apply build_from_azure_ext.
    + now rewrite Hother by discriminate.
    + now apply when_truthy_Some.
    + now apply when_truthy_Some.
Qed.

Lemma azure_other_entries_ignored_witness :
  parse_azure_conn_str
    "options=-c=x user=u password=pw port=5432 host=h dbname=d timeout=10"
    !! "options" = Some "-c=x" ∧
  parse_azure_conn_str "host=h port=5432 dbname=d user=u password=pw"
    !! "options" = None ∧
  build_url 4300
    (<["AZURE_POSTGRESQL_CONNECTIONSTRING" :=
         "options=-c=x user=u password=pw port=5432 host=h dbname=d timeout=10"]>
       env_azure_example)
  = build_url 4300 env_azure_example.
Proof.
  split; [reflexivity |]. split; [reflexivity |].
  apply (azure_other_entries_ignored 4300 env_azure_example
           "host=h port=5432 dbname=d user=u password=pw").
  - reflexivity.
  - discriminate.
  - discriminate.
  - intros k Hk. unfold azure_keys in Hk.
    rewrite !elem_of_cons, elem_of_nil in Hk.
    destruct Hk as [->|[->|[->|[->|[->|[->|[]]]]]]]; reflexivity.
Defined.

(** X10: outside the [DATABASE_URL] branch the driver name of the descriptor
    is the value of [DB_DRIVER] whenever that variable is set, also when it
    is set to the empty string: unlike the other variables, an empty
    [DB_DRIVER] does not fall back to the default. *)
Theorem empty_driver_is_used (lim : nat) (env : Os.environ) (u : URL.t)
    (driver : string) :
  unset_or_empty (Os.getenv env "DATABASE_URL") →
  Os.getenv env "DB_DRIVER" = Some driver →
  result (build_url lim env) = Return u →
  URL.drivername u = driver.
Proof.
  intros Hdb Hdr. unfold Os.getenv in Hdr.
  destruct (build_url_resolution lim env)
    as [| ? url _ Hurl Hne | ? conn ? _ _ _ _ Haz | |];
    simpl; intros Hu; try discriminate.
  - destruct Hdb; congruence.
  - destruct Haz; simpl in Hu; try discriminate.
    injection Hu as <-. simpl. unfold Os.getenv_default. now rewrite Hdr.
  - injection Hu as <-. simpl. unfold Os.getenv_default. now rewrite Hdr.
Qed.

Lemma empty_driver_is_used_witness :
  Os.getenv env_empty_driver "DB_DRIVER" = Some "" ∧
  result (build_url 4300 env_empty_driver)
  = Return (URL.mk "" (Some "u") (Some "p") (Some "db.internal")
              (Some 5432%Z) (Some "app") ∅) ∧
  URL.drivername (URL.mk "" (Some "u") (Some "p") (Some "db.internal")
                    (Some 5432%Z) (Some "app") ∅) = "".
Proof.
  split; [reflexivity |]. split; [reflexivity |].
  apply (empty_driver_is_used 4300 env_empty_driver).
  - left. reflexivity.
  - reflexivity.
  - reflexivity.
Defined.

Lemma azure_resolution_usable (lim : nat) (driver conn : string)
    (m : M URL.t) (u : URL.t) :
  azure_resolution lim driver conn m →
  result m = Return u →
  azure_usable lim conn.
Proof.
  intros [| |h n us p port Hh ? Hn ? Hus ? Hp ? Hport] Hu;
    simpl in Hu; try discriminate.
  split.
  - intros k Hk. unfold required in Hk.
    rewrite !elem_of_cons, elem_of_nil in Hk.
    destruct Hk as [->|[->|[->|[->|[]]]]]; eauto.
  - intros s Hs. rewrite Hs in Hport. eauto.
Qed.

Lemma azure_usable_returns (lim : nat) (driver conn : string) :
  azure_usable lim conn ↔
  ∃ u, result (build_from_azure lim driver conn) = Return u.
Proof.
  split.
  - intros [Hreq Hport].
    destruct (build_from_azure_resolution lim driver conn)
      as [k Hk Hmiss| h n u p s _ _ _ _ _ _ _ _ Hs Hbad |]; simpl.
    + destruct (Hreq k Hk) as (v & Hv & Hne). destruct Hmiss; congruence.
    + destruct (Hport s Hs) as [port Hp]. congruence.
    + eauto.
  - intros [u Hu].
    eauto using azure_resolution_usable, build_from_azure_resolution.
Qed.

(** X11: [build_url] returns a descriptor exactly when the port text
    converts and one of three cases holds: [DATABASE_URL] is non-empty; or
    it is unset or empty, the connection string is non-empty, has its four
    required entries non-empty, and its [port] entry, if any, converts;
    or both are unset or empty and the four split values are non-empty. *)
Theorem build_url_returns_iff (lim : nat) (env : Os.environ) :
  (∃ u, result (build_url lim env) = Return u) ↔
  is_Some (PyInt.parse lim (port_text env)) ∧
  (¬ unset_or_empty (Os.getenv env "DATABASE_URL") ∨
   (unset_or_empty (Os.getenv env "DATABASE_URL") ∧
    ∃ conn, Os.getenv env "AZURE_POSTGRESQL_CONNECTIONSTRING" = Some conn ∧
            conn ≠ "" ∧ azure_usable lim conn) ∨
   (unset_or_empty (Os.getenv env "DATABASE_URL") ∧
    unset_or_empty (Os.getenv env "AZURE_POSTGRESQL_CONNECTIONSTRING") ∧
    split_usable env)).
Proof.
  split.
  - intros [u Hu].
    destruct (build_url_resolution lim env)
      as [| port url Hport Hurl Hne | port conn m Hport Hdb Hconn Hne Haz
         | port h n us p Hport Hdb Haz Hh ? Hn ? Hus ? Hp ? |];
      simpl in Hu; try discriminate.
    + split; [eauto |]. left. apply not_unset_or_empty. eauto.
    + split; [eauto |]. right. left. split; [done |].
      exists conn. split_and!; try done.
      eapply azure_resolution_usable; eauto.
    + split; [eauto |]. right. right. split_and!; try done.
      unfold split_usable. rewrite !not_unset_or_empty. split_and!; eauto.
  - intros [[port Hport] [Hdb|[[Hdb (conn & Hconn & Hne & Huse)]
                              |(Hdb & Haz & Huse)]]].
    + apply not_unset_or_empty in Hdb as (url & Hurl & Hne).
      rewrite (build_url_path1 lim env port Hport url); [simpl; eauto |].
      now apply when_truthy_Some.
    + rewrite (build_url_path2 lim env port Hport conn).
      * now apply azure_usable_returns.
      * now apply when_truthy_None.
      * now apply when_truthy_Some.
    + rewrite (build_url_path3 lim env port Hport); [simpl; eauto | | |].
      * now apply when_truthy_None.
      * now apply when_truthy_None.
      * unfold split_usable in Huse. rewrite !not_unset_or_empty in Huse.
        destruct Huse as ((h & ? & ?) & (n & ? & ?) & (us & ? & ?) & (p & ? & ?)).
        apply all_truthy. exists h, n, us, p. tauto.
Qed.

(** X12: [build_url] raises [ValueError] in exactly two situations: the
    port text of the environment does not convert; or [DATABASE_URL] is
    unset or empty, the connection string is non-empty and has its four
    required entries non-empty, and the [port] entry of the string does not
    convert. *)
Theorem build_url_value_error_iff (lim : nat) (env : Os.environ) :
  result (build_url lim env) = Raise ValueError ↔
  PyInt.parse lim (port_text env) = None ∨
  (unset_or_empty (Os.getenv env "DATABASE_URL") ∧
   ∃ conn s,
     Os.getenv env "AZURE_POSTGRESQL_CONNECTIONSTRING" = Some conn ∧
     conn ≠ "" ∧
     (∀ k, k ∈ required →
           ∃ v, parse_azure_conn_str conn !! k = Some v ∧ v ≠ "") ∧
     parse_azure_conn_str conn !! "port" = Some s ∧
     PyInt.parse lim s = None).
Proof.
  split.
  - destruct (build_url_resolution lim env)
      as [Hport| | port conn m Hport Hdb Hconn Hne Haz | |];
      simpl; intros He; try discriminate; [now left |].
    right. split; [done |].
    destruct Haz as [| h n u p s Hh ? Hn ? Hu ? Hp ? Hs Hbad |];
      simpl in He; try discriminate.
    exists conn, s. split_and!; try done.
    intros k Hk. unfold required in Hk.
    rewrite !elem_of_cons, elem_of_nil in Hk.
    destruct Hk as [->|[->|[->|[->|[]]]]]; eauto.
  - intros [Hport|(Hdb & conn & s & Hconn & Hne & Hreq & Hs & Hbad)].
    + now rewrite build_url_port_error.
    + destruct (PyInt.parse lim (port_text env)) as [port|] eqn:Hport;
        [| now rewrite build_url_port_error].
      rewrite (build_url_path2 lim env port Hport conn).
      * destruct (build_from_azure_resolution lim
                    (Os.getenv_default env "DB_DRIVER" "postgresql+psycopg")
                    conn)
          as [k Hk Hmiss| |h n u p cport _ _ _ _ _ _ _ _ Hcport]; simpl.
        -- destruct (Hreq k Hk) as (v & Hv & Hvne).
           destruct Hmiss; congruence.
        -- reflexivity.
        -- rewrite Hs in Hcport. congruence.
      * now apply when_truthy_None.
      * now apply when_truthy_Some.
Qed.

(** X13: outside the [DATABASE_URL] branch, a returned descriptor never has
    an empty or missing user, password, host or database, and always has a
    port. *)
Theorem descriptor_fields_nonempty (lim : nat) (env : Os.environ)
    (u : URL.t) :
  unset_or_empty (Os.getenv env "DATABASE_URL") →
  result (build_url lim env) = Return u →
  ¬ unset_or_empty (URL.username u) ∧ ¬ unset_or_empty (URL.password u) ∧
  ¬ unset_or_empty (URL.host u) ∧ ¬ unset_or_empty (URL.database u) ∧
  is_Some (URL.port u).
Proof.
  intros Hdb.
  destruct (build_url_resolution lim env)
    as [| ? url _ Hurl Hne | ? conn ? _ _ _ _ Haz | |];
    simpl; intros Hu; try discriminate.
  - destruct Hdb; congruence.
  - destruct Haz; simpl in Hu; try discriminate.
    injection Hu as <-. simpl. rewrite !not_unset_or_empty.
    split_and!; eauto.
  - injection Hu as <-. simpl. rewrite !not_unset_or_empty.
    split_and!; eauto.
Qed.

Lemma descriptor_fields_nonempty_witness :
  let u := URL.mk "postgresql+psycopg" (Some "u") (Some "p")
             (Some "db.internal") (Some 6543%Z) (Some "app") ∅ in
  result (build_url 4300 env_empty_short_names) = Return u ∧
  ¬ unset_or_empty (URL.username u) ∧ ¬ unset_or_empty (URL.password u) ∧
  ¬ unset_or_empty (URL.host u) ∧ ¬ unset_or_empty (URL.database u) ∧
  is_Some (URL.port u).
Proof.
  split; [reflexivity |].
  apply (descriptor_fields_nonempty 4300 env_empty_short_names).
  - left. reflexivity.
  - reflexivity.
Defined.

(** X14: the two configuration errors, each with the exact situation that
    raises it.  The error on an incomplete connection string is raised if
    and only if the port text converts, [DATABASE_URL] is unset or empty,
    the connection string is non-empty and one of its four required
    entries is missing or empty.  The error that lists the three ways to
    configure is raised if and only if the port text converts,
    [DATABASE_URL] and the connection string are unset or empty, and one of
    the four split values is unset or empty. *)
Theorem build_url_runtime_error_iff (lim : nat) (env : Os.environ) :
  (result (build_url lim env) = Raise (RuntimeError msg_incomplete) ↔
   is_Some (PyInt.parse lim (port_text env)) ∧
   unset_or_empty (Os.getenv env "DATABASE_URL") ∧
   ∃ conn k,
     Os.getenv env "AZURE_POSTGRESQL_CONNECTIONSTRING" = Some conn ∧
     conn ≠ "" ∧ k ∈ required ∧
     unset_or_empty (parse_azure_conn_str conn !! k)) ∧
  (result (build_url lim env) = Raise (RuntimeError msg_no_config) ↔
   is_Some (PyInt.parse lim (port_text env)) ∧
   unset_or_empty (Os.getenv env "DATABASE_URL") ∧
   unset_or_empty (Os.getenv env "AZURE_POSTGRESQL_CONNECTIONSTRING") ∧
   ¬ split_usable env).
Proof.
  split; split.
  - destruct (build_url_resolution lim env)
      as [| | port conn m Hport Hdb Hconn Hne Haz | |];
      simpl; intros He; try discriminate.
    destruct Haz as [k Hk Hmiss| |]; simpl in He; try discriminate.
    split_and!; eauto 8.
  - intros ([port Hport] & Hdb & conn & k & Hconn & Hne & Hk & Hmiss).
    rewrite (build_url_path2 lim env port Hport conn).
    + unfold build_from_azure.
      assert (forallb (present (parse_azure_conn_str conn)) required = false)
        as -> by (apply required_incomplete; eauto).
      reflexivity.
    + now apply when_truthy_None.
    + now apply when_truthy_Some.
  - destruct (build_url_resolution lim env)
      as [| | port conn m Hport Hdb Hconn Hne Haz | | port Hport Hdb Haz Hmiss];
      simpl; intros He; try discriminate.
    + destruct Haz; simpl in He; discriminate.
    + split_and!; eauto. unfold split_usable. tauto.
  - intros ([port Hport] & Hdb & Haz & Hmiss).
    rewrite (build_url_path4 lim env port Hport); [reflexivity | | |].
    + now apply when_truthy_None.
    + now apply when_truthy_None.
    + apply not_true_iff_false. intros Hall. apply Hmiss.
      apply all_truthy in Hall
        as (h & n & us & p & [? ?] & [? ?] & [? ?] & [? ?]).
      unfold split_usable. rewrite !not_unset_or_empty. split_and!; eauto.
Qed.
